(** * ZX Spectrum character-set extractor: [utils/extract_chars.py]

    A shallow embedding of the script and of the small part of the Python
    runtime it touches (binary read, text write, [print], exceptions), and
    the properties of the generated C header.

    Conventions of the embedding
    - Python [int] is [Z]; a [bytes] object is a [list byte]; [str] is
      [string] (the text the script produces is pure ASCII).
    - The file system is a finite map from paths to nodes; standard output
      is the list of the arguments of the [print] calls made so far.
    - Effects are threaded through a state-and-exception monad [M].
    - Text files are written as on a POSIX system (no newline translation,
      one byte per ASCII character) and unbuffered. *)

From Stdlib Require Import ZArith NArith Ascii String Strings.Byte.
From Stdlib Require Import Decimal Hexadecimal DecimalString Lia.
From stdpp Require Import gmap strings list fin_maps.

Local Open Scope Z_scope.

(** The line feed written by ["\n"]. *)
Definition nl : string := String "010"%char EmptyString.

(** ** The pieces of Python used by the script *)
Module Py.

(** [l[a:b]] for [0 <= a] and [0 <= b]: the elements at the positions
    [a <= k < min b (len l)]; empty when [b <= a]. *)
Definition slice {A} (l : list A) (a b : Z) : list A :=
  take (Z.to_nat (b - a)) (drop (Z.to_nat a) l).

(** [range(n)] *)
Definition range (n : Z) : list Z := Z.of_nat <$> seq 0 (Z.to_nat n).

(** [len(l)] *)
Definition len {A} (l : list A) : Z := Z.of_nat (length l).

(** [str(z)] on an [int]: decimal digits, a minus sign when negative. *)
Definition str_int (z : Z) : string := NilZero.string_of_int (Z.to_int z).

(** [s.rjust(width, c)]: what a format width does to a number. *)
Definition rjust (c : ascii) (width : nat) (s : string) : string :=
  string_of_list_ascii (replicate (width - String.length s) c) +:+ s.

(** [f"{z:3d}"] *)
Definition format_3d (z : Z) : string := rjust " "%char 3 (str_int z).

(** Upper-case hexadecimal digits, most significant first. *)
Fixpoint upper_hex (d : Hexadecimal.uint) : string :=
  match d with
  | Hexadecimal.Nil => EmptyString
  | Hexadecimal.D0 r => String "0" (upper_hex r)
  | Hexadecimal.D1 r => String "1" (upper_hex r)
  | Hexadecimal.D2 r => String "2" (upper_hex r)
  | Hexadecimal.D3 r => String "3" (upper_hex r)
  | Hexadecimal.D4 r => String "4" (upper_hex r)
  | Hexadecimal.D5 r => String "5" (upper_hex r)
  | Hexadecimal.D6 r => String "6" (upper_hex r)
  | Hexadecimal.D7 r => String "7" (upper_hex r)
  | Hexadecimal.D8 r => String "8" (upper_hex r)
  | Hexadecimal.D9 r => String "9" (upper_hex r)
  | Hexadecimal.Da r => String "A" (upper_hex r)
  | Hexadecimal.Db r => String "B" (upper_hex r)
  | Hexadecimal.Dc r => String "C" (upper_hex r)
  | Hexadecimal.Dd r => String "D" (upper_hex r)
  | Hexadecimal.De r => String "E" (upper_hex r)
  | Hexadecimal.Df r => String "F" (upper_hex r)
  end.

(** [f"{b:02X}"] on a non-negative [int]. *)
Definition format_02X (b : N) : string :=
  rjust "0"%char 2 (upper_hex (N.to_hex_uint b)).

(** [chr(z)] for a code below 256. *)
Definition chr (z : Z) : string :=
  String (ascii_of_N (Z.to_N z)) EmptyString.

(** [sep.join(l)] *)
Definition join (sep : string) (l : list string) : string :=
  String.concat sep l.

(** The items a [for b in some_bytes] loop sees: ints in [0, 256). *)
Definition ints_of_bytes (bs : list byte) : list N := Byte.to_N <$> bs.

(** Values a function can return (the script only ever returns [None]). *)
Inductive value :=
| VNone
| VBool (b : bool)
| VInt (z : Z)
| VStr (s : string).

End Py.

(** ** Files, standard output and exceptions *)
Module Os.

Inductive node :=
| File (readable writable : bool) (data : list byte)
| Dir.

Record world := World {
  fs : gmap string node;          (* path |-> node *)
  disk_free : option nat;         (* bytes left on the device; None: no limit *)
  stdout : list string            (* one entry per print call *)
}.

Inductive errno := ENOENT | EBADF | EACCES | ENOTDIR | EISDIR | ENOSPC.

(** The exceptions that can occur: [OSError] and its subclasses (which
    Python picks from the errno), and [SystemExit], which is a
    [BaseException] but not an [Exception]. *)
Inductive exn :=
| OSError (code : errno) (filename : option string)
| SystemExit (status : Z).

Definition is_Exception (e : exn) : bool :=
  match e with OSError _ _ => true | SystemExit _ => false end.

Definition is_FileNotFoundError (e : exn) : bool :=
  match e with OSError ENOENT _ => true | _ => false end.

Definition errno_number (c : errno) : Z :=
  match c with
  | ENOENT => 2 | EBADF => 9 | EACCES => 13 | ENOTDIR => 20 | EISDIR => 21
  | ENOSPC => 28
  end.

Definition strerror (c : errno) : string :=
  match c with
  | ENOENT => "No such file or directory"
  | EBADF => "Bad file descriptor"
  | EACCES => "Permission denied"
  | ENOTDIR => "Not a directory"
  | EISDIR => "Is a directory"
  | ENOSPC => "No space left on device"
  end.

(** [str(e)]; the file name is shown as [repr] shows a plain path, in
    single quotes. *)
Definition str_exn (e : exn) : string :=
  match e with
  | OSError c None =>
      "[Errno " +:+ Py.str_int (errno_number c) +:+ "] " +:+ strerror c
  | OSError c (Some p) =>
      "[Errno " +:+ Py.str_int (errno_number c) +:+ "] " +:+ strerror c
      +:+ ": '" +:+ p +:+ "'"
  | SystemExit s => Py.str_int s
  end.

(** State and exception monad. *)
Definition M (A : Type) : Type := world -> world * (A + exn).

Definition ret {A} (a : A) : M A := fun w => (w, inl a).

Definition raise {A} (e : exn) : M A := fun w => (w, inr e).

Definition bind {A B} (m : M A) (k : A -> M B) : M B :=
  fun w => match m w with
           | (w', inl a) => k a w'
           | (w', inr e) => (w', inr e)
           end.

(** [try: body / except ...: handler]; the handler re-raises what none of
    its clauses matches. *)
Definition try_except {A} (body : M A) (handler : exn -> M A) : M A :=
  fun w => match body w with
           | (w', inl a) => (w', inl a)
           | (w', inr e) => handler e w'
           end.

(** [for x in l: body x] *)
Fixpoint for_each {A} (l : list A) (body : A -> M unit) : M unit :=
  match l with
  | [] => ret tt
  | x :: rest => bind (body x) (fun _ => for_each rest body)
  end.

(** An open file is named by its path. *)
Definition handle := string.

(** The directory part of a path: what precedes its last slash. *)
Fixpoint dirname (p : string) : option string :=
  match p with
  | EmptyString => None
  | String c rest =>
      match dirname rest with
      | Some d => Some (String c d)
      | None => if Ascii.eqb c "/" then Some EmptyString else None
      end
  end.

(** What the directory part of a path names. A path without one lies
    in the current directory. *)
Inductive parent_state := ParentDir | ParentMissing | ParentNotDir.

Definition parent (w : world) (p : string) : parent_state :=
  match dirname p with
  | None => ParentDir
  | Some EmptyString => ParentDir
  | Some d => match fs w !! d with
              | Some Dir => ParentDir
              | Some (File _ _ _) => ParentNotDir
              | None => ParentMissing
              end
  end.

(** [open(path, 'rb')] *)
Definition open_rb (path : string) : M handle :=
  fun w => match fs w !! path with
           | None => (w, inr (OSError ENOENT (Some path)))
           | Some Dir => (w, inr (OSError EISDIR (Some path)))
           | Some (File r _ _) =>
               if r then (w, inl path)
               else (w, inr (OSError EACCES (Some path)))
           end.

(** [f.read()] *)
Definition read (f : handle) : M (list byte) :=
  fun w => match fs w !! f with
           | Some (File _ _ data) => (w, inl data)
           | _ => (w, inr (OSError EBADF None))
           end.

(** [open(path, 'w')]: truncates an existing file, creates a missing one. *)
Definition open_w (path : string) : M handle :=
  fun w => match fs w !! path with
           | Some Dir => (w, inr (OSError EISDIR (Some path)))
           | Some (File r wr _) =>
               if wr
               then (World (<[path := File r wr []]> (fs w))
                           (disk_free w) (stdout w), inl path)
               else (w, inr (OSError EACCES (Some path)))
           | None =>
               match parent w path with
               | ParentDir =>
                   (World (<[path := File true true []]> (fs w))
                          (disk_free w) (stdout w), inl path)
               | ParentMissing => (w, inr (OSError ENOENT (Some path)))
               | ParentNotDir => (w, inr (OSError ENOTDIR (Some path)))
               end
           end.

(** Room for [n] more bytes. *)
Definition has_room (free : option nat) (n : nat) : bool :=
  match free with
  | None => true
  | Some q => (n <=? q)%nat
  end.

Definition use_room (free : option nat) (n : nat) : option nat :=
  (fun q => (q - n)%nat) <$> free.

(** [f.write(s)]: appends, or fails when the device is full. *)
Definition write (f : handle) (s : string) : M unit :=
  fun w => match fs w !! f with
           | Some (File r wr data) =>
               if has_room (disk_free w) (String.length s)
               then (World (<[f := File r wr (data ++ list_byte_of_string s)]> (fs w))
                           (use_room (disk_free w) (String.length s))
                           (stdout w), inl tt)
               else (w, inr (OSError ENOSPC None))
           | _ => (w, inr (OSError EBADF None))
           end.

(** [print(s)] *)
Definition print (s : string) : M unit :=
  fun w => (World (fs w) (disk_free w) (stdout w ++ [s]), inl tt).

(** [sys.exit(status)] *)
Definition sys_exit {A} (status : Z) : M A := raise (SystemExit status).

End Os.

Declare Scope py_scope.
Delimit Scope py_scope with py.
Bind Scope py_scope with Os.M.
Notation "x <- c1 ;; c2" := (Os.bind c1 (fun x => c2))
  (at level 100, c1 at next level, c2 at level 200, right associativity)
  : py_scope.
Notation "c1 ;; c2" := (Os.bind c1 (fun _ => c2))
  (at level 100, c2 at level 200, right associativity) : py_scope.
Local Open Scope py_scope.

(** ** The script *)
Module ExtractChars.
Import Py Os.

Definition CHAR_START : Z := 15616.
Definition CHAR_SIZE : Z := 8.
Definition NUM_CHARS : Z := 96.

(** The text one iteration of the loop writes for [char_idx]. *)
Definition record_line (charset : list byte) (char_idx : Z) : string :=
  let offset := char_idx * CHAR_SIZE in
  let char_bytes := slice charset offset (offset + CHAR_SIZE) in
  let ascii_code := char_idx + 32 in
  let char_name :=
    if (33 <=? ascii_code) && (ascii_code <=? 126) then chr ascii_code
    else " "%string in
  let byte_str :=
    join ", " ((fun b => "0x" +:+ format_02X b) <$> ints_of_bytes char_bytes) in
  let comment :=
    if ascii_code =? 32 then
      "  /* ASCII " +:+ format_3d ascii_code +:+ " (SPACE) */"
    else if (33 <=? ascii_code) && (ascii_code <=? 126) then
      "  /* ASCII " +:+ format_3d ascii_code +:+ " ('" +:+ char_name +:+ "') */"
    else
      "  /* ASCII " +:+ format_3d ascii_code +:+ " */" in
  let comma := if char_idx <? NUM_CHARS - 1 then ","%string else EmptyString in
  "    {" +:+ byte_str +:+ "}" +:+ comma +:+ comment +:+ nl.

Definition too_small_message : string :=
  "Error: ROM file too small. Expected at least "
  +:+ str_int (CHAR_START + NUM_CHARS * CHAR_SIZE) +:+ " bytes.".

Definition success_message (output_path : string) : string :=
  "Successfully extracted " +:+ str_int NUM_CHARS +:+ " characters to "
  +:+ output_path.

Definition not_found_message (rom_path : string) : string :=
  "Error: ROM file '" +:+ rom_path +:+ "' not found.".

Definition error_message (e : exn) : string := "Error: " +:+ str_exn e.

(** The body of the [try] block. *)
Definition extract_charset_try (rom_path output_path : string) : M value :=
  f <- open_rb rom_path ;;
  rom_data <- read f ;;
  if len rom_data <? CHAR_START + NUM_CHARS * CHAR_SIZE then
    print too_small_message ;;
    ret VNone
  else
    let charset :=
      slice rom_data CHAR_START (CHAR_START + NUM_CHARS * CHAR_SIZE) in
    f <- open_w output_path ;;
    write f ("/*" +:+ nl) ;;
    write f (" * ZX Spectrum Character Set" +:+ nl) ;;
    write f (" * Extracted from ROM at address 0x3D00" +:+ nl) ;;
    write f (" * 96 characters (ASCII 32-127), 8 bytes each" +:+ nl) ;;
    write f (" */" +:+ nl +:+ nl) ;;
    write f ("const unsigned char zx_spectrum_charset[96][8] = {" +:+ nl) ;;
    for_each (range NUM_CHARS)
      (fun char_idx => write f (record_line charset char_idx)) ;;
    write f ("};" +:+ nl) ;;
    print (success_message output_path) ;;
    ret VNone.

(** The [except] clauses, in order. *)
Definition extract_charset_except (rom_path : string) (e : exn) : M value :=
  if is_FileNotFoundError e then
    print (not_found_message rom_path) ;; ret VNone
  else if is_Exception e then
    print (error_message e) ;; ret VNone
  else raise e.

Definition extract_charset (rom_path output_path : string) : M value :=
  try_except (extract_charset_try rom_path output_path)
             (extract_charset_except rom_path).

Definition usage_line : string :=
  "Usage: python extract_zx_charset.py <rom_file> [output_file]".
Definition example_heading : string := nl +:+ "Example:".
Definition example_line : string :=
  "  python extract_zx_charset.py zx48.rom charset.h".

(** The [__main__] block. *)
Definition main (argv : list string) : M unit :=
  if len argv <? 2 then
    print usage_line ;;
    print example_heading ;;
    print example_line ;;
    sys_exit 1
  else
    let rom_file := nth 1 argv EmptyString in
    let output_file :=
      if 2 <? len argv then nth 2 argv EmptyString else "zx_charset.h"%string in
    extract_charset rom_file output_file ;;
    ret tt.

(** Exit status of the interpreter running the script: 0 when the script
    runs to its end, the status of [sys.exit], 1 for an uncaught
    exception. *)
Definition run_script (argv : list string) (w : world) : world * Z :=
  match main argv w with
  | (w', inl _) => (w', 0)
  | (w', inr (SystemExit s)) => (w', s)
  | (w', inr (OSError _ _)) => (w', 1)
  end.

End ExtractChars.

(** ** Reading the generated text *)
Module Text.

(** The lines of a text: what precedes each line feed, and a last
    unterminated line when there is one. *)
Fixpoint lines (s : string) : list string :=
  match s with
  | EmptyString => []
  | String c rest =>
      if Ascii.eqb c "010" then EmptyString :: lines rest
      else match lines rest with
           | [] => [String c EmptyString]
           | l :: ls => String c l :: ls
           end
  end.

(** Each line followed by a line feed. *)
Definition unlines (ls : list string) : string :=
  foldr (fun l acc => l +:+ nl +:+ acc) EmptyString ls.

(** Concatenation of the strings of a list. *)
Definition str_concat (ls : list string) : string :=
  foldr String.append EmptyString ls.

(** [c] does not occur in [s]. *)
Fixpoint lacks (c : ascii) (s : string) : bool :=
  match s with
  | EmptyString => true
  | String d rest => negb (Ascii.eqb d c) && lacks c rest
  end.

(** What follows the first occurrence of [c] in [s]. *)
Fixpoint after_char (c : ascii) (s : string) : string :=
  match s with
  | EmptyString => EmptyString
  | String d rest => if Ascii.eqb d c then rest else after_char c rest
  end.

(** [s] begins with [p]. *)
Fixpoint starts_with (p s : string) : bool :=
  match p, s with
  | EmptyString, _ => true
  | String _ _, EmptyString => false
  | String a p', String b s' => Ascii.eqb a b && starts_with p' s'
  end.

(** An array line is a line that opens a brace after the indentation. *)
Definition is_array_line (l : string) : bool := starts_with "    {" l.

Definition array_lines (doc : string) : list string :=
  List.filter is_array_line (lines doc).

(** What an array line carries after the closing brace of its array. *)
Definition after_array (line : string) : string := after_char "}" line.

Definition has_trailing_comma (line : string) : bool :=
  starts_with "," (after_array line).

(** The comment of an array line: what follows the brace and the comma. *)
Definition trailing_comment (line : string) : string :=
  match after_array line with
  | String "," rest => rest
  | t => t
  end.

(** The text of a file, when the path names a file. *)
Definition file_text (w : Os.world) (path : string) : option string :=
  match Os.fs w !! path with
  | Some (Os.File _ _ data) => Some (string_of_list_byte data)
  | _ => None
  end.

Definition file_bytes (w : Os.world) (path : string) : option (list byte) :=
  match Os.fs w !! path with
  | Some (Os.File _ _ data) => Some data
  | _ => None
  end.

End Text.


(** ** The layout of the generated header, read off the script *)
Module Layout.
Import Py Os ExtractChars Text.

(** The bytes of record [char_idx]: [charset[offset:offset + CHAR_SIZE]]. *)
Definition chunk (charset : list byte) (char_idx : Z) : list byte :=
  slice charset (char_idx * CHAR_SIZE) (char_idx * CHAR_SIZE + CHAR_SIZE).

(** [byte_str] of the loop, as a function of the record's bytes. *)
Definition byte_str_of (char_bytes : list byte) : string :=
  join ", " ((fun b => "0x" +:+ format_02X b) <$> ints_of_bytes char_bytes).

(** [comma] and [comment] of the loop, as functions of the index. *)
Definition comma_of (char_idx : Z) : string :=
  if char_idx <? NUM_CHARS - 1 then ","%string else EmptyString.

Definition comment_of (char_idx : Z) : string :=
  let ascii_code := char_idx + 32 in
  if ascii_code =? 32 then
    "  /* ASCII " +:+ format_3d ascii_code +:+ " (SPACE) */"
  else if (33 <=? ascii_code) && (ascii_code <=? 126) then
    "  /* ASCII " +:+ format_3d ascii_code +:+ " ('" +:+ chr ascii_code +:+ "') */"
  else
    "  /* ASCII " +:+ format_3d ascii_code +:+ " */".

(** A record line without its line feed. *)
Definition record_text (charset : list byte) (char_idx : Z) : string :=
  "    {" +:+ byte_str_of (chunk charset char_idx) +:+ "}"
  +:+ comma_of char_idx +:+ comment_of char_idx.

Definition header_lines : list string :=
  [ "/*";
    " * ZX Spectrum Character Set";
    " * Extracted from ROM at address 0x3D00";
    " * 96 characters (ASCII 32-127), 8 bytes each";
    " */";
    EmptyString ]%string.

Definition opening_line : string :=
  "const unsigned char zx_spectrum_charset[96][8] = {".

Definition closing_line : string := "};".

(** The arguments of the successive [f.write] calls of a complete run. *)
Definition pieces (charset : list byte) : list string :=
  [ "/*" +:+ nl;
    " * ZX Spectrum Character Set" +:+ nl;
    " * Extracted from ROM at address 0x3D00" +:+ nl;
    " * 96 characters (ASCII 32-127), 8 bytes each" +:+ nl;
    " */" +:+ nl +:+ nl;
    "const unsigned char zx_spectrum_charset[96][8] = {" +:+ nl ]
  ++ (record_line charset <$> range NUM_CHARS)
  ++ [ "};" +:+ nl ].

(** The complete text of the header. *)
Definition document (charset : list byte) : string :=
  str_concat (pieces charset).

(** The slice of the ROM the script keeps. *)
Definition window (rom_data : list byte) : list byte :=
  slice rom_data CHAR_START (CHAR_START + NUM_CHARS * CHAR_SIZE).

(** Number of characters of the generated header. *)
Definition DOCUMENT_SIZE : nat := Z.to_nat 7564.

(** The lines of the header, in order. *)
Definition all_lines (charset : list byte) : list string :=
  header_lines ++ [opening_line]
  ++ (record_text charset <$> range NUM_CHARS) ++ [closing_line].

End Layout.

(** ** The hexadecimal and decimal fields, as the format describes them *)
Module Fields.

Definition hex_digit (d : N) : ascii :=
  match d with
  | 0 => "0" | 1 => "1" | 2 => "2" | 3 => "3" | 4 => "4" | 5 => "5"
  | 6 => "6" | 7 => "7" | 8 => "8" | 9 => "9" | 10 => "A" | 11 => "B"
  | 12 => "C" | 13 => "D" | 14 => "E" | _ => "F"
  end%N%char.

(** A byte as [0x] and two upper-case hexadecimal digits. *)
Definition hex_byte (b : byte) : string :=
  String "0" (String "x"
    (String (hex_digit (Byte.to_N b / 16))
      (String (hex_digit (Byte.to_N b mod 16)) EmptyString))).

(** Eight values, separated by a comma and a space, inside braces. *)
Definition braced (bs : list byte) : string :=
  "{" +:+ String.concat ", " (hex_byte <$> bs) +:+ "}".

Definition dec_digit (d : Z) : ascii := ascii_of_N (48 + Z.to_N d).

(** A code below 1000 right-aligned in three columns. *)
Definition code_field (code : Z) : string :=
  String (if code <? 100 then " "%char else dec_digit (code / 100))
    (String (if code <? 10 then " "%char else dec_digit (code / 10 mod 10))
      (String (dec_digit (code mod 10)) EmptyString)).

(** The character with a given ASCII code. *)
Definition glyph (code : Z) : ascii := ascii_of_N (Z.to_N code).

End Fields.

(** ** Conditions of a run, and sample inputs *)
Module Env.
Import Os.

(** [open(path, 'w')] will succeed. *)
Definition can_open_w (w : world) (path : string) : bool :=
  match fs w !! path with
  | Some Dir => false
  | Some (File _ wr _) => wr
  | None => match parent w path with ParentDir => true | _ => false end
  end.

(** The world after [s] has been appended to the file [f], which held [d]. *)
Definition appended (w : world) (f : handle) (r wr : bool) (d : list byte)
    (s : string) : world :=
  World (<[f := File r wr (d ++ list_byte_of_string s)]> (fs w))
        (use_room (disk_free w) (String.length s))
        (stdout w).

(** The world after one more [print]. *)
Definition printed (w : world) (msg : string) : world :=
  World (fs w) (disk_free w) (stdout w ++ [msg]).

(** The read permission of the destination once opened for writing: kept
    when the file exists, granted when it is created. *)
Definition dest_readable (w : world) (path : string) : bool :=
  match fs w !! path with
  | Some (File r _ _) => r
  | _ => true
  end.

Definition all_bytes : list byte :=
  (fun i => default x00 (Byte.of_N (N.of_nat i))) <$> seq 0 256.

(** A ROM of exactly the minimum size, each byte equal to its own offset
    modulo 256. *)
Definition pattern_rom : list byte := mjoin (replicate 64 all_bytes).

Definition sample_world : world :=
  World {[ "zx48.rom"%string := File true true pattern_rom ]} None [].

(** One byte short of the minimum, next to an existing header. *)
Definition short_world : world :=
  World {[ "zx48.rom"%string
             := File true true (take (Z.to_nat 16383) pattern_rom);
           "charset.h"%string := File true true [x2f; x2f] ]} None [].


Definition empty_world : world := World ∅ None [].

(** A longer ROM with the window of [pattern_rom] and other bytes around
    it, on a device with little room left, next to a header to replace. *)
Definition padded_rom : list byte :=
  replicate (Z.to_nat 15616) xff
  ++ drop (Z.to_nat 15616) pattern_rom ++ [x00; x00].

Definition second_world : world :=
  World {[ "other.rom"%string := File true false padded_rom;
           "font.h"%string := File false true [x2f; x2f] ]}
        (Some (Z.to_nat 8000)) [].

(** The device fills up after 100 bytes. *)
Definition full_world : world :=
  World {[ "zx48.rom"%string := File true true pattern_rom ]}
        (Some 100%nat) [].

End Env.

(** ** Ways a run can end, and reading the fields back *)
Module Outcome.
Import Os Env.

(** The world right after [open(path, 'w')] has succeeded. *)
Definition opened (w : world) (path : string) : world :=
  World (<[path := File (dest_readable w path) true []]> (fs w))
        (disk_free w) (stdout w).

(** Every character of [s] satisfies [p]. *)
Fixpoint all_chars (p : ascii -> bool) (s : string) : bool :=
  match s with
  | EmptyString => true
  | String c rest => p c && all_chars p rest
  end.

(** The byte of a character is below 128. *)
Definition seven_bit (c : ascii) : bool :=
  (Byte.to_N (byte_of_ascii c) <? 128)%N.

(** The value of an upper-case hexadecimal digit. *)
Definition hex_digit_value (c : ascii) : N :=
  let n := N_of_ascii c in
  if (n <? 58)%N then (n - 48)%N else (n - 55)%N.

(** The byte a field [0xHH] stands for. *)
Definition field_value (s : string) : byte :=
  match s with
  | String _ (String _ (String h (String l _))) =>
      default x00 (Byte.of_N (16 * hex_digit_value h + hex_digit_value l))
  | _ => x00
  end.

(** Number of positions of [s] at which [p] begins. *)
Fixpoint count_sub (p s : string) : nat :=
  match s with
  | EmptyString => 0
  | String _ rest =>
      ((if Text.starts_with p s then 1 else 0) + count_sub p rest)%nat
  end.

(** [s] ends with [p]: some tail of [s] is [p]. *)
Fixpoint ends_with (p s : string) : bool :=
  String.eqb p s
  || match s with
     | EmptyString => false
     | String _ rest => ends_with p rest
     end.


End Outcome.

(** ** The model on small inputs *)
Section Examples.
Import Py Os ExtractChars Text Layout Fields Env.

Example format_02X_samples :
  (format_02X 0, format_02X 10, format_02X 255) = ("00", "0A", "FF")%string.
Proof. reflexivity. Qed.

Example format_3d_samples :
  (format_3d 5, format_3d 32, format_3d 127) = ("  5", " 32", "127")%string.
Proof. reflexivity. Qed.

Example slice_clamps : slice [x01; x02; x03] 1 8 = [x02; x03].
Proof. reflexivity. Qed.

Example record_line_space :
  record_line [x00; x18; x18; x18; x18; x00; x18; x00] 0
  = "    {0x00, 0x18, 0x18, 0x18, 0x18, 0x00, 0x18, 0x00},  /* ASCII  32 (SPACE) */"
    +:+ nl.
Proof. vm_compute. reflexivity. Qed.

Example lines_sample :
  lines ("a" +:+ nl +:+ nl +:+ "b" +:+ nl) = ["a"; EmptyString; "b"]%string.
Proof. reflexivity. Qed.

Example dirname_sample : dirname "out/charset.h" = Some "out"%string.
Proof. reflexivity. Qed.

Example sample_run_reports_success :
  let res := extract_charset "zx48.rom" "charset.h" sample_world in
  snd res = inl VNone /\
  stdout (fst res) = ["Successfully extracted 96 characters to charset.h"%string] /\
  (array_lines <$> file_text (fst res) "charset.h") ≫= (fun ls => ls !! 1%nat)
  = Some "    {0x08, 0x09, 0x0A, 0x0B, 0x0C, 0x0D, 0x0E, 0x0F},  /* ASCII  33 ('!') */"%string.
Proof. vm_compute. auto. Qed.

(** A destination in a directory that does not exist makes [open] raise
    [FileNotFoundError] too, which the first clause reports against the
    ROM path. *)
Example missing_directory_run :
  let res := extract_charset "zx48.rom" "out/charset.h" sample_world in
  snd res = inl VNone /\
  stdout (fst res) = ["Error: ROM file 'zx48.rom' not found."%string] /\
  file_text (fst res) "out/charset.h" = None.
Proof. vm_compute. auto. Qed.

(** A device that fills up leaves the beginning of the header behind. *)
Example full_device_run :
  let res := extract_charset "zx48.rom" "charset.h" full_world in
  snd res = inl VNone /\
  stdout (fst res) = ["Error: [Errno 28] No space left on device"%string] /\
  file_text (fst res) "charset.h"
  = Some ("/*" +:+ nl +:+ " * ZX Spectrum Character Set" +:+ nl
          +:+ " * Extracted from ROM at address 0x3D00" +:+ nl).
Proof. vm_compute. auto. Qed.

Example script_with_arguments :
  snd (run_script ["extract_chars.py"; "zx48.rom"]%string sample_world) = 0 /\
  is_Some (fs (fst (run_script ["extract_chars.py"; "zx48.rom"]%string
                      sample_world)) !! "zx_charset.h"%string).
Proof. vm_compute. eauto. Qed.

End Examples.

(** ** Facts about strings *)
Section StringFacts.
Import Text.

Lemma append_cons c (s1 s2 : string) :
  String c s1 +:+ s2 = String c (s1 +:+ s2).
Proof. reflexivity. Qed.

Lemma append_nil_l (s : string) : EmptyString +:+ s = s.
Proof. reflexivity. Qed.

Lemma append_nil_r (s : string) : s +:+ EmptyString = s.
Proof.
  induction s as [|c s IH]; [reflexivity |].
  now rewrite append_cons, IH.
Qed.

Lemma append_assoc (s1 s2 s3 : string) :
  (s1 +:+ s2) +:+ s3 = s1 +:+ (s2 +:+ s3).
Proof.
  induction s1 as [|c s1 IH]; [reflexivity |].
  now rewrite !append_cons, IH.
Qed.

Lemma length_append (s1 s2 : string) :
  String.length (s1 +:+ s2) = (String.length s1 + String.length s2)%nat.
Proof.
  induction s1 as [|c s1 IH]; [reflexivity |].
  rewrite append_cons. simpl. now rewrite IH.
Qed.

Lemma bytes_cons c (s : string) :
  list_byte_of_string (String c s) = byte_of_ascii c :: list_byte_of_string s.
Proof. reflexivity. Qed.

Lemma bytes_append (s1 s2 : string) :
  list_byte_of_string (s1 +:+ s2)
  = list_byte_of_string s1 ++ list_byte_of_string s2.
Proof.
  induction s1 as [|c s1 IH]; [reflexivity |].
  now rewrite append_cons, !bytes_cons, IH.
Qed.

Lemma length_bytes (s : string) :
  length (list_byte_of_string s) = String.length s.
Proof.
  induction s as [|c s IH]; [reflexivity |].
  rewrite bytes_cons. simpl. now rewrite IH.
Qed.

Lemma str_concat_app (l1 l2 : list string) :
  str_concat (l1 ++ l2) = str_concat l1 +:+ str_concat l2.
Proof.
  induction l1 as [|s l1 IH]; [reflexivity |].
  simpl. now rewrite IH, append_assoc.
Qed.

Lemma lacks_append c (s1 s2 : string) :
  lacks c (s1 +:+ s2) = lacks c s1 && lacks c s2.
Proof.
  induction s1 as [|d s1 IH]; [reflexivity |].
  rewrite append_cons. simpl. now rewrite IH, andb_assoc.
Qed.

Lemma lines_line (l rest : string) :
  lacks "010" l = true -> lines (l +:+ nl +:+ rest) = l :: lines rest.
Proof.
  induction l as [|c l IH]; intros H; [reflexivity |].
  simpl in H. apply andb_true_iff in H as [Hc Hl].
  apply negb_true_iff in Hc.
  rewrite append_cons. simpl. rewrite Hc, (IH Hl). reflexivity.
Qed.

Lemma lines_unlines (ls : list string) :
  Forall (fun l => lacks "010" l = true) ls -> lines (unlines ls) = ls.
Proof.
  induction 1 as [|l ls Hl _ IH]; [reflexivity |].
  simpl. now rewrite (lines_line _ _ Hl), IH.
Qed.

Lemma after_char_append c (s1 s2 : string) :
  lacks c s1 = true ->
  after_char c (s1 +:+ String c s2) = s2.
Proof.
  induction s1 as [|d s1 IH]; intros H.
  - rewrite append_nil_l. simpl. now rewrite Ascii.eqb_refl.
  - simpl in H. apply andb_true_iff in H as [Hd Hs].
    apply negb_true_iff in Hd.
    rewrite append_cons. simpl. rewrite Hd. now apply IH.
Qed.

End StringFacts.

(** ** Facts about the formatted fields *)
Section FieldFacts.
Import Py Os ExtractChars Text Layout Fields.

Lemma range_lookup (n i : Z) :
  0 <= i < n -> range n !! Z.to_nat i = Some i.
Proof.
  intros Hi. unfold range.
  rewrite list_lookup_fmap, lookup_seq_lt by lia.
  simpl. f_equal. lia.
Qed.

Lemma range_length (n : Z) : length (range n) = Z.to_nat n.
Proof. unfold range. now rewrite length_fmap, length_seq. Qed.

Lemma range_bounds (n i : Z) : i ∈ range n -> 0 <= i < n.
Proof.
  unfold range. intros H.
  apply list_elem_of_fmap in H as (k & -> & Hk).
  apply elem_of_seq in Hk. lia.
Qed.

Lemma range_forallb (P : Z -> bool) (n i : Z) :
  forallb P (range n) = true -> 0 <= i < n -> P i = true.
Proof.
  intros H Hi. rewrite forallb_forall in H. apply H.
  apply list_elem_of_In, list_elem_of_lookup.
  exists (Z.to_nat i). now apply range_lookup.
Qed.

(** The script's [0x{b:02X}] is the two-digit field on every byte. *)
Lemma hex_field (b : byte) : "0x" +:+ format_02X (Byte.to_N b) = hex_byte b.
Proof. destruct b; reflexivity. Qed.

Lemma byte_str_of_hex (bs : list byte) :
  byte_str_of bs = String.concat ", " (hex_byte <$> bs).
Proof.
  unfold byte_str_of, join, ints_of_bytes. f_equal.
  rewrite <- list_fmap_compose. apply list_fmap_ext.
  intros i b _. apply hex_field.
Qed.

Lemma hex_byte_lacks (c : ascii) (b : byte) :
  (c = "010" \/ c = "}")%char -> lacks c (hex_byte b) = true.
Proof. intros [-> | ->]; destruct b; reflexivity. Qed.

Lemma concat_lacks (c : ascii) (sep : string) (l : list string) :
  lacks c sep = true ->
  Forall (fun s => lacks c s = true) l ->
  lacks c (String.concat sep l) = true.
Proof.
  intros Hsep. induction 1 as [|s l Hs Hl IH]; [reflexivity |].
  destruct l as [|s' l]; [exact Hs |].
  change (String.concat sep (s :: s' :: l))
    with (s +:+ sep +:+ String.concat sep (s' :: l)).
  now rewrite !lacks_append, Hs, Hsep, IH.
Qed.

Lemma byte_str_lacks (c : ascii) (bs : list byte) :
  (c = "010" \/ c = "}")%char -> lacks c (byte_str_of bs) = true.
Proof.
  intros Hc. rewrite byte_str_of_hex. apply concat_lacks.
  - destruct Hc as [-> | ->]; reflexivity.
  - apply Forall_fmap, Forall_forall. intros b _.
    now apply hex_byte_lacks.
Qed.

Lemma record_line_text (charset : list byte) (i : Z) :
  record_line charset i = record_text charset i +:+ nl.
Proof.
  unfold record_line, record_text, comma_of, comment_of, byte_str_of, chunk.
  cbv zeta. rewrite !append_assoc.
  destruct (i + 32 =? 32); [reflexivity |].
  destruct ((33 <=? i + 32) && (i + 32 <=? 126)); reflexivity.
Qed.

Lemma record_text_braced (charset : list byte) (i : Z) :
  record_text charset i
  = "    " +:+ braced (chunk charset i) +:+ comma_of i +:+ comment_of i.
Proof.
  unfold record_text, braced. rewrite byte_str_of_hex.
  now rewrite !append_assoc.
Qed.

(** Separator and comment do not depend on the bytes; every index of the
    loop is checked by evaluation. *)
Lemma tail_lacks_nl (i : Z) :
  0 <= i < NUM_CHARS -> lacks "010" (comma_of i +:+ comment_of i) = true.
Proof.
  apply (range_forallb (fun i => lacks "010" (comma_of i +:+ comment_of i))).
  vm_compute. reflexivity.
Qed.

Lemma record_text_lacks_nl (charset : list byte) (i : Z) :
  0 <= i < NUM_CHARS -> lacks "010" (record_text charset i) = true.
Proof.
  intros Hi. unfold record_text.
  rewrite !lacks_append, byte_str_lacks by now left.
  rewrite <- lacks_append, (tail_lacks_nl i Hi). reflexivity.
Qed.

Lemma record_text_is_array_line (charset : list byte) (i : Z) :
  is_array_line (record_text charset i) = true.
Proof. reflexivity. Qed.

Lemma record_text_after_array (charset : list byte) (i : Z) :
  after_array (record_text charset i) = comma_of i +:+ comment_of i.
Proof.
  unfold after_array, record_text.
  rewrite <- (append_assoc "    {").
  change ("}" +:+ comma_of i +:+ comment_of i)
    with (String "}" (comma_of i +:+ comment_of i)).
  apply after_char_append.
  rewrite lacks_append, byte_str_lacks by now right. reflexivity.
Qed.

End FieldFacts.

(** ** Facts about the document *)
Section DocumentFacts.
Import Py Os ExtractChars Text Layout Fields.

Lemma unlines_app (l1 l2 : list string) :
  unlines (l1 ++ l2) = unlines l1 +:+ unlines l2.
Proof.
  induction l1 as [|l l1 IH]; [reflexivity |].
  simpl. now rewrite IH, !append_assoc.
Qed.

Lemma str_concat_record_lines (charset : list byte) (l : list Z) :
  str_concat (record_line charset <$> l) = unlines (record_text charset <$> l).
Proof.
  induction l as [|i l IH]; [reflexivity |].
  rewrite !fmap_cons.
  change (record_line charset i +:+ str_concat (record_line charset <$> l)
          = record_text charset i +:+ nl +:+ unlines (record_text charset <$> l)).
  now rewrite IH, record_line_text, append_assoc.
Qed.

Lemma document_unlines (charset : list byte) :
  document charset = unlines (all_lines charset).
Proof.
  unfold document, pieces, all_lines.
  rewrite !str_concat_app, !unlines_app, str_concat_record_lines.
  reflexivity.
Qed.

Lemma record_texts_lack_nl (charset : list byte) :
  Forall (fun l => lacks "010" l = true) (record_text charset <$> range NUM_CHARS).
Proof.
  apply Forall_fmap, Forall_forall. intros i Hi.
  apply record_text_lacks_nl. now apply range_bounds.
Qed.

Lemma lines_document (charset : list byte) :
  lines (document charset) = all_lines charset.
Proof.
  rewrite document_unlines. apply lines_unlines.
  unfold all_lines. rewrite !Forall_app. repeat split.
  - repeat constructor.
  - repeat constructor.
  - apply record_texts_lack_nl.
  - repeat constructor.
Qed.

Lemma filter_all {A} (p : A -> bool) (l : list A) :
  Forall (fun x => p x = true) l -> List.filter p l = l.
Proof.
  induction 1 as [|x l Hx _ IH]; [reflexivity |].
  simpl. now rewrite Hx, IH.
Qed.

Lemma array_lines_document (charset : list byte) :
  array_lines (document charset) = record_text charset <$> range NUM_CHARS.
Proof.
  unfold array_lines. rewrite lines_document. unfold all_lines.
  rewrite !List.filter_app.
  change (List.filter is_array_line header_lines) with (@nil string).
  change (List.filter is_array_line [opening_line]) with (@nil string).
  change (List.filter is_array_line [closing_line]) with (@nil string).
  rewrite app_nil_l, app_nil_l, app_nil_r.
  apply filter_all, Forall_fmap, Forall_forall.
  intros i _. apply record_text_is_array_line.
Qed.

End DocumentFacts.

(** ** The bytes of a record *)
Section ChunkFacts.
Import Py Os ExtractChars Text Layout Fields.

Lemma window_length (rom_data : list byte) :
  16384 <= len rom_data -> length (window rom_data) = Z.to_nat 768.
Proof.
  unfold len, window, slice, CHAR_START, NUM_CHARS, CHAR_SIZE. intros H.
  rewrite length_take, length_drop. lia.
Qed.

Lemma chunk_length (charset : list byte) (i : Z) :
  length charset = Z.to_nat 768 -> 0 <= i < 96 ->
  length (chunk charset i) = 8%nat.
Proof.
  unfold chunk, slice, CHAR_SIZE. intros H Hi.
  rewrite length_take, length_drop. lia.
Qed.

Lemma chunk_window_lookup (rom_data : list byte) (i j : Z) :
  0 <= i < 96 -> 0 <= j < 8 ->
  chunk (window rom_data) i !! Z.to_nat j
  = rom_data !! Z.to_nat (15616 + 8 * i + j).
Proof.
  unfold chunk, window, slice, CHAR_START, NUM_CHARS, CHAR_SIZE. intros Hi Hj.
  rewrite lookup_take_lt by lia.
  rewrite lookup_drop.
  rewrite lookup_take_lt by lia.
  rewrite lookup_drop. f_equal. lia.
Qed.

Lemma concat_fields_length (l : list string) :
  Forall (fun s => String.length s = 4%nat) l ->
  String.length (String.concat ", " l) = (6 * length l - 2)%nat.
Proof.
  induction 1 as [|s l Hs Hl IH]; [reflexivity |].
  destruct l as [|s' l]; [simpl; lia |].
  change (String.concat ", " (s :: s' :: l))
    with (s +:+ ", " +:+ String.concat ", " (s' :: l)).
  rewrite !length_append, IH, Hs. simpl. lia.
Qed.

Lemma record_text_length (charset : list byte) (i : Z) :
  length (chunk charset i) = 8%nat ->
  String.length (record_text charset i)
  = (52 + String.length (comma_of i +:+ comment_of i))%nat.
Proof.
  intros H. unfold record_text. rewrite byte_str_of_hex.
  rewrite !length_append, concat_fields_length.
  - rewrite length_fmap, H. simpl. lia.
  - apply Forall_fmap, Forall_forall. now intros b _.
Qed.

Lemma unlines_length (ls : list string) :
  Z.of_nat (String.length (unlines ls))
  = foldr (fun l acc => Z.of_nat (String.length l) + 1 + acc) 0 ls.
Proof.
  induction ls as [|l ls IH]; [reflexivity |].
  simpl. rewrite !length_append, <- IH. simpl. lia.
Qed.

Lemma foldr_ext_in {A} (f g : A -> Z -> Z) (l : list A) :
  (forall x, x ∈ l -> forall z, f x z = g x z) ->
  foldr f 0 l = foldr g 0 l.
Proof.
  induction l as [|x l IH]; intros H; [reflexivity |].
  simpl. rewrite IH.
  - apply H. apply list_elem_of_here.
  - intros y Hy. apply H. now apply list_elem_of_further.
Qed.

Lemma record_texts_length (charset : list byte) :
  length charset = Z.to_nat 768 ->
  Z.of_nat (String.length (unlines (record_text charset <$> range NUM_CHARS)))
  = 7387.
Proof.
  intros H. rewrite unlines_length, foldr_fmap.
  rewrite (foldr_ext_in _
    (fun i acc =>
       Z.of_nat (52 + String.length (comma_of i +:+ comment_of i)) + 1 + acc)).
  - vm_compute. reflexivity.
  - intros i Hi z. apply range_bounds in Hi.
    rewrite record_text_length; [reflexivity |].
    apply chunk_length; [exact H | exact Hi].
Qed.

Lemma document_length (charset : list byte) :
  length charset = Z.to_nat 768 ->
  String.length (document charset) = DOCUMENT_SIZE.
Proof.
  intros H. apply Nat2Z.inj.
  rewrite document_unlines. unfold all_lines.
  rewrite !unlines_app, !length_append, !Nat2Z.inj_add.
  rewrite (record_texts_length _ H).
  vm_compute. reflexivity.
Qed.

End ChunkFacts.

(** ** Running the monad *)
Section RunFacts.
Import Py Os ExtractChars Text Layout Env.

Lemma bind_eq {A B} (m : M A) (k : A -> M B) w w' a :
  m w = (w', inl a) -> bind m k w = k a w'.
Proof. unfold bind. now intros ->. Qed.

Lemma bind_raise {A B} (m : M A) (k : A -> M B) w w' e :
  m w = (w', inr e) -> bind m k w = (w', inr e).
Proof. unfold bind. now intros ->. Qed.

Lemma bind_ext {A B} (m : M A) (k k' : A -> M B) w :
  (forall a w', k a w' = k' a w') -> bind m k w = bind m k' w.
Proof.
  intros H. unfold bind. destruct (m w) as [w' [a | e]]; [apply H | reflexivity].
Qed.

Lemma bind_assoc {A B C} (m : M A) (k : A -> M B) (h : B -> M C) w :
  bind (bind m k) h w = bind m (fun a => bind (k a) h) w.
Proof. unfold bind. destruct (m w) as [w' [a | e]]; reflexivity. Qed.

Lemma for_each_nil_bind {A B} (body : A -> M unit) (K : unit -> M B) w :
  bind (for_each [] body) K w = K tt w.
Proof. reflexivity. Qed.

Lemma for_each_cons_bind {A B} x l (body : A -> M unit) (K : unit -> M B) w :
  bind (for_each (x :: l) body) K w
  = bind (body x) (fun _ => bind (for_each l body) K) w.
Proof. apply bind_assoc. Qed.

Lemma for_each_app_bind {A B} l1 l2 (body : A -> M unit) (K : unit -> M B) w :
  bind (for_each (l1 ++ l2) body) K w
  = bind (for_each l1 body) (fun _ => bind (for_each l2 body) K) w.
Proof.
  revert w. induction l1 as [|x l1 IH]; intros w.
  - rewrite app_nil_l, for_each_nil_bind. reflexivity.
  - rewrite <- app_comm_cons, !for_each_cons_bind.
    apply bind_ext. intros _ w'. apply IH.
Qed.

Lemma for_each_fmap_bind {A A' B} (g : A -> A') l (body : A' -> M unit)
    (K : unit -> M B) w :
  bind (for_each (g <$> l) body) K w
  = bind (for_each l (fun x => body (g x))) K w.
Proof.
  revert w. induction l as [|x l IH]; intros w; [reflexivity |].
  rewrite fmap_cons, !for_each_cons_bind.
  apply bind_ext. intros _ w'. apply IH.
Qed.

(** The writes of a complete run are the writes of [pieces], in order. *)
Lemma try_writes {A} (f : handle) (charset : list byte) (K : M A) w :
  (write f ("/*" +:+ nl) ;;
   write f (" * ZX Spectrum Character Set" +:+ nl) ;;
   write f (" * Extracted from ROM at address 0x3D00" +:+ nl) ;;
   write f (" * 96 characters (ASCII 32-127), 8 bytes each" +:+ nl) ;;
   write f (" */" +:+ nl +:+ nl) ;;
   write f ("const unsigned char zx_spectrum_charset[96][8] = {" +:+ nl) ;;
   for_each (range NUM_CHARS)
     (fun char_idx => write f (record_line charset char_idx)) ;;
   write f ("};" +:+ nl) ;;
   K) w
  = (for_each (pieces charset) (write f) ;; K) w.
Proof.
  symmetry. unfold pieces.
  rewrite for_each_app_bind.
  do 6 (rewrite for_each_cons_bind; apply bind_ext; intros _ ?w).
  rewrite for_each_nil_bind, for_each_app_bind, for_each_fmap_bind.
  apply bind_ext; intros _ ?w.
  rewrite for_each_cons_bind. apply bind_ext; intros _ ?w.
  reflexivity.
Qed.

Lemma has_room_add (free : option nat) (a b : nat) :
  has_room free (a + b) = true ->
  has_room free a = true /\ has_room (use_room free a) b = true.
Proof.
  destruct free as [q|]; simpl; [| now split].
  rewrite !Nat.leb_le. lia.
Qed.

Lemma use_room_add (free : option nat) (a b : nat) :
  use_room (use_room free a) b = use_room free (a + b).
Proof. destruct free as [q|]; simpl; [f_equal; lia | reflexivity]. Qed.

Lemma write_ok (f : handle) (s : string) w r wr d :
  fs w !! f = Some (File r wr d) ->
  has_room (disk_free w) (String.length s) = true ->
  write f s w = (appended w f r wr d s, inl tt).
Proof. unfold write. now intros -> ->. Qed.

Lemma appended_nil w f r wr d :
  fs w !! f = Some (File r wr d) -> appended w f r wr d EmptyString = w.
Proof.
  intros H. destruct w as [m q o]. unfold appended. simpl in *.
  rewrite app_nil_r, insert_id by exact H.
  f_equal. destruct q; simpl; [f_equal; lia | reflexivity].
Qed.

Lemma appended_appended w f r wr d s1 s2 :
  appended (appended w f r wr d s1) f r wr (d ++ list_byte_of_string s1) s2
  = appended w f r wr d (s1 +:+ s2).
Proof.
  unfold appended. simpl.
  now rewrite insert_insert_eq, use_room_add, bytes_append, length_append, app_assoc.
Qed.

Lemma writes_ok (f : handle) (l : list string) : forall w r wr d,
  fs w !! f = Some (File r wr d) ->
  has_room (disk_free w) (String.length (str_concat l)) = true ->
  for_each l (write f) w = (appended w f r wr d (str_concat l), inl tt).
Proof.
  induction l as [|s l IH]; intros w r wr d Hf Hroom.
  - simpl. now rewrite appended_nil.
  - change (str_concat (s :: l)) with (s +:+ str_concat l) in *.
    rewrite length_append in Hroom.
    apply has_room_add in Hroom as [Hs Hl].
    change (for_each (s :: l) (write f))
      with (bind (write f s) (fun _ => for_each l (write f))).
    rewrite (bind_eq _ _ _ _ _ (write_ok f s w r wr d Hf Hs)).
    rewrite (IH _ r wr (d ++ list_byte_of_string s)).
    + now rewrite appended_appended.
    + unfold appended. simpl. apply lookup_insert_eq.
    + exact Hl.
Qed.

(** Writing never prints, and fails only with an [OSError]. *)
Lemma writes_outcome (f : handle) (l : list string) : forall w w' res,
  for_each l (write f) w = (w', res) ->
  stdout w' = stdout w /\
  match res with inl _ => True | inr e => is_Exception e = true end.
Proof.
  induction l as [|s l IH]; intros w w' res H.
  - injection H as <- <-. now split.
  - change (for_each (s :: l) (write f))
      with (bind (write f s) (fun _ => for_each l (write f))) in H.
    unfold bind in H.
    destruct (write f s w) as [w1 [[] | e]] eqn:Hw.
    + apply IH in H as [H1 H2]. split; [| exact H2].
      rewrite H1. unfold write in Hw.
      destruct (fs w !! f) as [[r wr d |] |]; try discriminate.
      destruct (has_room _ _); [| discriminate].
      now injection Hw as <-.
    + injection H as <- <-. unfold write in Hw.
      destruct (fs w !! f) as [[r wr d |] |];
        [destruct (has_room _ _); [discriminate |] | |];
        injection Hw as <- <-; now split.
Qed.

End RunFacts.

(** ** The paths through [extract_charset] *)
Section Paths.
Import Py Os ExtractChars Text Layout Env.

Lemma open_rb_file w rom wr data :
  fs w !! rom = Some (File true wr data) -> open_rb rom w = (w, inl rom).
Proof. unfold open_rb. now intros ->. Qed.

Lemma read_file w rom r wr data :
  fs w !! rom = Some (File r wr data) -> read rom w = (w, inl data).
Proof. unfold read. now intros ->. Qed.

(** After a successful read the [try] block continues with the size test. *)
Lemma try_after_read w rom out wr data :
  fs w !! rom = Some (File true wr data) ->
  extract_charset_try rom out w
  = (if len data <? CHAR_START + NUM_CHARS * CHAR_SIZE then
       print too_small_message ;; ret VNone
     else
       f <- open_w out ;;
       for_each (pieces (window data)) (write f) ;;
       print (success_message out) ;;
       ret VNone) w.
Proof.
  intros H. unfold extract_charset_try.
  rewrite (bind_eq _ _ _ _ _ (open_rb_file _ _ _ _ H)).
  rewrite (bind_eq _ _ _ _ _ (read_file _ _ _ _ _ H)).
  destruct (len data <? CHAR_START + NUM_CHARS * CHAR_SIZE); [reflexivity |].
  apply bind_ext. intros f w'. apply try_writes.
Qed.

Lemma open_w_ok w out :
  can_open_w w out = true ->
  open_w out w
  = (World (<[out := File (dest_readable w out) true []]> (fs w))
           (disk_free w) (stdout w),
     inl out).
Proof.
  unfold can_open_w, open_w, dest_readable.
  destruct (fs w !! out) as [[r wr d |] |]; intros H.
  - now subst wr.
  - discriminate.
  - now destruct (parent w out).
Qed.

Lemma run_too_small w rom out wr data :
  fs w !! rom = Some (File true wr data) ->
  len data < 16384 ->
  extract_charset rom out w = (printed w too_small_message, inl VNone).
Proof.
  intros H Hlen. unfold extract_charset, try_except.
  rewrite (try_after_read _ _ _ _ _ H).
  replace (len data <? CHAR_START + NUM_CHARS * CHAR_SIZE) with true.
  - reflexivity.
  - symmetry. apply Z.ltb_lt. exact Hlen.
Qed.

Lemma run_success w rom out wr data :
  fs w !! rom = Some (File true wr data) ->
  16384 <= len data ->
  can_open_w w out = true ->
  has_room (disk_free w) DOCUMENT_SIZE = true ->
  extract_charset rom out w
  = (printed
       (World (<[out := File (dest_readable w out) true
                          (list_byte_of_string (document (window data)))]> (fs w))
              (use_room (disk_free w) DOCUMENT_SIZE) (stdout w))
       (success_message out),
     inl VNone).
Proof.
  intros H Hlen Hout Hroom.
  pose proof (open_w_ok _ _ Hout) as Hopen.
  set (r := dest_readable w out) in *.
  unfold extract_charset, try_except.
  rewrite (try_after_read _ _ _ _ _ H).
  replace (len data <? CHAR_START + NUM_CHARS * CHAR_SIZE) with false
    by (symmetry; apply Z.ltb_ge; exact Hlen).
  rewrite (bind_eq _ _ _ _ _ Hopen).
  pose proof (document_length _ (window_length _ Hlen)) as Hsize.
  assert (Hwrites :
    for_each (pieces (window data)) (write out)
      (World (<[out := File r true []]> (fs w)) (disk_free w) (stdout w))
    = (appended
         (World (<[out := File r true []]> (fs w)) (disk_free w) (stdout w))
         out r true [] (document (window data)), inl tt)).
  { apply writes_ok; [apply lookup_insert_eq |].
    change (has_room (disk_free w) (String.length (document (window data)))
            = true).
    now rewrite Hsize. }
  rewrite (bind_eq _ _ _ _ _ Hwrites).
  unfold bind, print, ret, printed, appended. cbn [fs disk_free stdout].
  now rewrite insert_insert_eq, app_nil_l, Hsize.
Qed.

Lemma run_missing w rom out :
  fs w !! rom = None ->
  extract_charset rom out w = (printed w (not_found_message rom), inl VNone).
Proof.
  intros H. unfold extract_charset, try_except, extract_charset_try.
  erewrite bind_raise; [| unfold open_rb; rewrite H; reflexivity].
  reflexivity.
Qed.

(** What the [except] clauses do with an [Exception]. *)
Lemma except_Exception rom e w :
  is_Exception e = true ->
  extract_charset_except rom e w
  = (printed w (if is_FileNotFoundError e then not_found_message rom
                else error_message e),
     inl VNone).
Proof.
  intros He. unfold extract_charset_except.
  destruct (is_FileNotFoundError e); [reflexivity |].
  now rewrite He.
Qed.

(** Every run prints exactly one message and returns [None]. *)
Lemma run_outcome w rom out :
  exists w' msg,
    extract_charset rom out w = (printed w' msg, inl VNone) /\
    stdout w' = stdout w /\
    (msg = success_message out \/
     msg = too_small_message \/
     msg = not_found_message rom \/
     exists e, is_Exception e = true /\ msg = error_message e).
Proof.
  assert (Hexc : forall w1 e,
    stdout w1 = stdout w -> is_Exception e = true ->
    extract_charset_try rom out w = (w1, inr e) ->
    exists w' msg,
      extract_charset rom out w = (printed w' msg, inl VNone) /\
      stdout w' = stdout w /\
      (msg = success_message out \/
       msg = too_small_message \/
       msg = not_found_message rom \/
       exists e, is_Exception e = true /\ msg = error_message e)).
  { intros w1 e Hout He Htry. unfold extract_charset, try_except.
    rewrite Htry, (except_Exception _ _ _ He).
    eexists _, _. split; [reflexivity |]. split; [exact Hout |].
    destruct (is_FileNotFoundError e); [tauto |].
    right. right. right. now exists e. }
  destruct (fs w !! rom) as [[r wr data |] |] eqn:Hrom.
  - destruct r.
    + pose proof (try_after_read _ _ out _ _ Hrom) as Htry.
      destruct (len data <? CHAR_START + NUM_CHARS * CHAR_SIZE).
      * exists w, too_small_message.
        unfold extract_charset, try_except. rewrite Htry.
        split; [reflexivity |]. split; tauto.
      * unfold bind at 1 in Htry.
        destruct (open_w out w) as [w1 [f | e]] eqn:Hopen.
        -- assert (stdout w1 = stdout w /\ f = out) as [Hw1 ->].
           { unfold open_w in Hopen.
             destruct (fs w !! out) as [[r0 wr0 d0 |] |].
             - destruct wr0; [| discriminate]. now injection Hopen as <- <-.
             - discriminate.
             - destruct (parent w out); try discriminate.
               now injection Hopen as <- <-. }
           unfold bind at 1 in Htry.
           destruct (for_each (pieces (window data)) (write out) w1)
             as [w2 [[] | e]] eqn:Hwr;
             destruct (writes_outcome _ _ _ _ _ Hwr) as [Hw2 He].
           ++ exists w2, (success_message out).
              unfold extract_charset, try_except. rewrite Htry.
              split; [reflexivity |]. split; [congruence | tauto].
           ++ apply (Hexc w2 e); [congruence | exact He | exact Htry].
        -- assert (stdout w1 = stdout w /\ is_Exception e = true) as [Hw1 He].
           { unfold open_w in Hopen.
             destruct (fs w !! out) as [[r0 wr0 d0 |] |].
             - destruct wr0; [discriminate |]. now injection Hopen as <- <-.
             - now injection Hopen as <- <-.
             - destruct (parent w out); try discriminate;
                 now injection Hopen as <- <-. }
           now apply (Hexc w1 e).
    + apply (Hexc w (OSError EACCES (Some rom))); [reflexivity | reflexivity |].
      unfold extract_charset_try.
      apply bind_raise. unfold open_rb. now rewrite Hrom.
  - apply (Hexc w (OSError EISDIR (Some rom))); [reflexivity | reflexivity |].
    unfold extract_charset_try.
    apply bind_raise. unfold open_rb. now rewrite Hrom.
  - exists w, (not_found_message rom). split; [now apply run_missing |].
    split; tauto.
Qed.

End Paths.

(** ** The generated header *)
Section Header.
Import Py Os ExtractChars Text Layout Fields Env.

(** A complete run leaves the document in the destination file. *)
Lemma run_document w rom out wr data :
  fs w !! rom = Some (File true wr data) ->
  16384 <= len data ->
  can_open_w w out = true ->
  has_room (disk_free w) DOCUMENT_SIZE = true ->
  snd (extract_charset rom out w) = inl VNone /\
  file_bytes (fst (extract_charset rom out w)) out
  = Some (list_byte_of_string (document (window data))) /\
  file_text (fst (extract_charset rom out w)) out
  = Some (document (window data)).
Proof.
  intros H Hlen Hout Hroom.
  rewrite (run_success _ _ _ _ _ H Hlen Hout Hroom).
  unfold file_bytes, file_text, printed. cbn [fst snd fs].
  rewrite lookup_insert_eq, string_of_list_byte_of_string. auto.
Qed.

Lemma array_lines_length (charset : list byte) :
  length (array_lines (document charset)) = 96%nat.
Proof. rewrite array_lines_document, length_fmap, range_length. reflexivity. Qed.

Lemma array_lines_lookup (charset : list byte) (i : Z) :
  0 <= i < 96 ->
  array_lines (document charset) !! Z.to_nat i = Some (record_text charset i).
Proof.
  intros Hi. rewrite array_lines_document, list_lookup_fmap.
  now rewrite (range_lookup NUM_CHARS i Hi).
Qed.

(** Separator and comment of each index, against the expected text. *)
Lemma tail_has_comma (i : Z) :
  0 <= i < 96 ->
  starts_with "," (comma_of i +:+ comment_of i) = (i <? 95).
Proof.
  intros Hi. apply Bool.eqb_prop.
  apply (range_forallb
    (fun i => Bool.eqb (starts_with "," (comma_of i +:+ comment_of i)) (i <? 95))
    96 i); [| exact Hi].
  vm_compute. reflexivity.
Qed.

End Header.

(** ** What each index contributes, and the window *)
Section IndexFacts.
Import Py Os ExtractChars Text Layout Fields Env.

(** Comment of each index, against the expected text. *)
Lemma tail_comment (i : Z) :
  0 <= i < 96 ->
  match comma_of i +:+ comment_of i with
  | String "," rest => rest
  | t => t
  end
  = if i =? 0 then "  /* ASCII  32 (SPACE) */"
    else if i <=? 94 then
      "  /* ASCII " +:+ code_field (i + 32) +:+ " ('"
      +:+ String (glyph (i + 32)) EmptyString +:+ "') */"
    else "  /* ASCII 127 */".
Proof.
  intros Hi. apply String.eqb_eq.
  apply (range_forallb
    (fun i =>
       String.eqb
         match comma_of i +:+ comment_of i with
         | String "," rest => rest
         | t => t
         end
         (if i =? 0 then "  /* ASCII  32 (SPACE) */"
          else if i <=? 94 then
            "  /* ASCII " +:+ code_field (i + 32) +:+ " ('"
            +:+ String (glyph (i + 32)) EmptyString +:+ "') */"
          else "  /* ASCII 127 */"))
    96 i); [| exact Hi].
  vm_compute. reflexivity.
Qed.

Lemma window_ext (data1 data2 : list byte) :
  (forall k, 15616 <= k < 16384 ->
             data2 !! Z.to_nat k = data1 !! Z.to_nat k) ->
  window data2 = window data1.
Proof.
  intros Hw. apply list_eq. intros j.
  unfold window, slice, CHAR_START, NUM_CHARS, CHAR_SIZE.
  destruct (decide (j < Z.to_nat 768)%nat) as [Hj | Hj].
  - rewrite !lookup_take_lt, !lookup_drop by lia.
    replace (Z.to_nat 15616 + j)%nat with (Z.to_nat (15616 + Z.of_nat j)) by lia.
    apply Hw. lia.
  - rewrite !lookup_take_ge by lia. reflexivity.
Qed.

(** A second run on the same paths leaves the header of the first. *)
Lemma second_run_keeps_header w rom out wr data :
  fs w !! rom = Some (File true wr data) ->
  16384 <= len data ->
  can_open_w w out = true ->
  has_room (disk_free w) (DOCUMENT_SIZE + DOCUMENT_SIZE) = true ->
  file_bytes
    (fst (extract_charset rom out (fst (extract_charset rom out w)))) out
  = Some (list_byte_of_string (document (window data))).
Proof.
  intros H Hlen Hout Hroom2.
  pose proof (proj1 (has_room_add _ _ _ Hroom2)) as Hroom.
  rewrite (run_success _ _ _ _ _ H Hlen Hout Hroom).
  cbn [fst].
  set (docbytes := list_byte_of_string (document (window data))).
  set (w1 := printed _ _).
  assert (Hout1 : fs w1 !! out = Some (File (dest_readable w out) true docbytes)).
  { unfold w1, printed. cbn [fs]. apply lookup_insert_eq. }
  destruct (decide (rom = out)) as [-> | Hne].
  - assert (Hr : dest_readable w out = true).
    { unfold dest_readable. now rewrite H. }
    rewrite Hr in Hout1.
    rewrite (run_too_small w1 out out true docbytes Hout1).
    + unfold printed, file_bytes. cbn [fst fs]. now rewrite Hout1.
    + unfold len, docbytes.
      rewrite length_bytes, (document_length _ (window_length _ Hlen)).
      unfold DOCUMENT_SIZE. lia.
  - assert (Hrom1 : fs w1 !! rom = Some (File true wr data)).
    { unfold w1, printed. cbn [fs]. rewrite lookup_insert_ne by congruence.
      exact H. }
    assert (Hcan : can_open_w w1 out = true).
    { unfold can_open_w. now rewrite Hout1. }
    assert (Hroom1 : has_room (disk_free w1) DOCUMENT_SIZE = true).
    { unfold w1, printed. cbn [disk_free].
      now apply has_room_add in Hroom2. }
    destruct (run_document _ _ _ _ _ Hrom1 Hlen Hcan Hroom1) as (_ & Hb & _).
    exact Hb.
Qed.

End IndexFacts.

(** ** Properties of a complete run *)
Section CompleteRun.
Import Py Os ExtractChars Text Layout Fields Env.

(** A readable source of at least 16384 bytes, a destination that can be
    opened for writing, and room for the header on the device. *)
Variables (w : world) (rom out : string) (wr : bool) (data : list byte).
Hypothesis source_readable : fs w !! rom = Some (File true wr data).
Hypothesis source_large : 16384 <= len data.
Hypothesis dest_writable : can_open_w w out = true.
Hypothesis device_has_room : has_room (disk_free w) DOCUMENT_SIZE = true.

Lemma complete_run :
  snd (extract_charset rom out w) = inl VNone /\
  file_bytes (fst (extract_charset rom out w)) out
  = Some (list_byte_of_string (document (window data))) /\
  file_text (fst (extract_charset rom out w)) out
  = Some (document (window data)).
Proof.
  exact (run_document _ _ _ _ _
           source_readable source_large dest_writable device_has_room).
Qed.

(** C1. For a readable source of at least 16384 bytes (and a destination
    that can be written), the header left in the destination has exactly
    96 array lines; array line [i] is the indentation followed by the
    braced, comma-separated list of the two-digit upper-case [0x] fields of
    eight bytes, and those bytes are, in order, the source bytes at the
    offsets [15616 + 8*i], ..., [15616 + 8*i + 7]. *)
Theorem array_lines_reproduce_window :
  exists doc,
    file_text (fst (extract_charset rom out w)) out = Some doc /\
    length (array_lines doc) = 96%nat /\
    forall i, 0 <= i < 96 ->
      exists bs rest,
        array_lines doc !! Z.to_nat i = Some ("    " +:+ braced bs +:+ rest) /\
        length bs = 8%nat /\
        forall j, 0 <= j < 8 ->
          bs !! Z.to_nat j = data !! Z.to_nat (15616 + 8 * i + j).
Proof.
  destruct complete_run as (_ & _ & Hdoc).
  exists (document (window data)). split; [exact Hdoc |].
  split; [apply array_lines_length |].
  intros i Hi.
  exists (chunk (window data) i), (comma_of i +:+ comment_of i).
  split; [| split].
  - rewrite (array_lines_lookup _ i Hi). f_equal. apply record_text_braced.
  - apply chunk_length; [now apply window_length | exact Hi].
  - intros j Hj. now apply chunk_window_lookup.
Qed.

(** C3. For a readable source of at least 16384 bytes, the comment that
    ends array line [i] is: for [i = 0] (code 32) the code and the name
    SPACE; for [1 <= i <= 94] (codes 33 to 126) the code in three columns
    and the character itself between quotes; for [i = 95] (code 127) the
    code alone. *)
Theorem comments_follow_ascii_code :
  exists doc,
    file_text (fst (extract_charset rom out w)) out = Some doc /\
    forall i, 0 <= i < 96 ->
      exists line,
        array_lines doc !! Z.to_nat i = Some line /\
        (i = 0 -> trailing_comment line = "  /* ASCII  32 (SPACE) */") /\
        (1 <= i <= 94 ->
           trailing_comment line
           = "  /* ASCII " +:+ code_field (i + 32) +:+ " ('"
             +:+ String (glyph (i + 32)) EmptyString +:+ "') */") /\
        (i = 95 -> trailing_comment line = "  /* ASCII 127 */").
Proof.
  destruct complete_run as (_ & _ & Hdoc).
  exists (document (window data)). split; [exact Hdoc |].
  intros i Hi. exists (record_text (window data) i).
  split; [now apply array_lines_lookup |].
  assert (Hc : trailing_comment (record_text (window data) i)
               = if i =? 0 then "  /* ASCII  32 (SPACE) */"
                 else if i <=? 94 then
                   "  /* ASCII " +:+ code_field (i + 32) +:+ " ('"
                   +:+ String (glyph (i + 32)) EmptyString +:+ "') */"
                 else "  /* ASCII 127 */").
  { unfold trailing_comment. rewrite record_text_after_array.
    now apply tail_comment. }
  rewrite Hc. repeat split.
  - now intros ->.
  - intros Hr. destruct (Z.eqb_spec i 0); [lia |].
    destruct (Z.leb_spec i 94); [reflexivity | lia].
  - now intros ->.
Qed.

(** C4. In the header left by a complete run, the last of the 96 array
    lines carries no comma after the closing brace of its array, and each
    of the other 95 carries one. *)
Theorem comma_on_all_but_last :
  exists doc,
    file_text (fst (extract_charset rom out w)) out = Some doc /\
    length (array_lines doc) = 96%nat /\
    (exists last,
       array_lines doc !! 95%nat = Some last /\
       has_trailing_comma last = false) /\
    forall i, 0 <= i < 95 ->
      exists line,
        array_lines doc !! Z.to_nat i = Some line /\
        has_trailing_comma line = true.
Proof.
  destruct complete_run as (_ & _ & Hdoc).
  exists (document (window data)). split; [exact Hdoc |].
  split; [apply array_lines_length |].
  assert (Hcomma : forall i, 0 <= i < 96 ->
    has_trailing_comma (record_text (window data) i) = (i <? 95)).
  { intros i Hi. unfold has_trailing_comma.
    rewrite record_text_after_array. now apply tail_has_comma. }
  split.
  - exists (record_text (window data) 95). split.
    + apply (array_lines_lookup _ 95). lia.
    + now rewrite Hcomma by lia.
  - intros i Hi. exists (record_text (window data) i). split.
    + apply array_lines_lookup. lia.
    + rewrite Hcomma by lia. apply Z.ltb_lt. lia.
Qed.

(** C7, amended. The header left by a complete run consists of a fixed
    comment of five lines (its opening, three lines of text, its closing)
    and an empty line, then the line opening the array
    [zx_spectrum_charset[96][8]], then the 96 array lines, then the closing
    line, in that order. *)
Theorem header_then_records_then_closing :
  exists doc,
    file_text (fst (extract_charset rom out w)) out = Some doc /\
    length (array_lines doc) = 96%nat /\
    lines doc
    = [ "/*";
        " * ZX Spectrum Character Set";
        " * Extracted from ROM at address 0x3D00";
        " * 96 characters (ASCII 32-127), 8 bytes each";
        " */";
        EmptyString;
        "const unsigned char zx_spectrum_charset[96][8] = {" ]%string
      ++ array_lines doc ++ ["};"%string].
Proof.
  destruct complete_run as (_ & _ & Hdoc).
  exists (document (window data)). split; [exact Hdoc |].
  split; [apply array_lines_length |].
  rewrite lines_document, array_lines_document. reflexivity.
Qed.

(** C6. The header left by a complete run depends on the source only
    through the bytes at the offsets 15616 to 16383: any other complete run,
    on a source of at least 16384 bytes that agrees on these offsets, leaves
    the same bytes in its destination; and running the script a second time
    on the same two paths leaves the destination as the first run left
    it. *)
Theorem output_depends_on_window_only :
  is_Some (file_bytes (fst (extract_charset rom out w)) out) /\
  (forall w2 rom2 out2 wr2 data2,
     fs w2 !! rom2 = Some (File true wr2 data2) ->
     16384 <= len data2 ->
     can_open_w w2 out2 = true ->
     has_room (disk_free w2) DOCUMENT_SIZE = true ->
     (forall k, 15616 <= k < 16384 ->
                data2 !! Z.to_nat k = data !! Z.to_nat k) ->
     file_bytes (fst (extract_charset rom2 out2 w2)) out2
     = file_bytes (fst (extract_charset rom out w)) out) /\
  (has_room (disk_free w) (DOCUMENT_SIZE + DOCUMENT_SIZE) = true ->
   file_bytes
     (fst (extract_charset rom out (fst (extract_charset rom out w)))) out
   = file_bytes (fst (extract_charset rom out w)) out).
Proof.
  destruct complete_run as (_ & Hbytes & _).
  split; [rewrite Hbytes; eauto |]. split.
  - intros w2 rom2 out2 wr2 data2 H2 Hlen2 Hout2 Hroom2 Hagree.
    destruct (run_document _ _ _ _ _ H2 Hlen2 Hout2 Hroom2) as (_ & Hbytes2 & _).
    rewrite Hbytes, Hbytes2. now rewrite (window_ext _ _ Hagree).
  - intros Hroom2. rewrite Hbytes.
    exact (second_run_keeps_header _ _ _ _ _
             source_readable source_large dest_writable Hroom2).
Qed.

End CompleteRun.

(** ** Complete runs on the sample inputs *)
Section SampleRuns.
Import Py Os ExtractChars Text Layout Fields Env.

Lemma pattern_rom_length : length pattern_rom = Z.to_nat 16384.
Proof. vm_compute. reflexivity. Qed.

Lemma padded_rom_window k :
  15616 <= k < 16384 ->
  padded_rom !! Z.to_nat k = pattern_rom !! Z.to_nat k.
Proof.
  intros Hk. unfold padded_rom.
  rewrite lookup_app_r by (rewrite length_replicate; lia).
  rewrite length_replicate.
  rewrite lookup_app_l
    by (rewrite length_drop, pattern_rom_length; lia).
  rewrite lookup_drop.
  replace (Z.to_nat 15616 + (Z.to_nat k - Z.to_nat 15616))%nat
    with (Z.to_nat k) by lia.
  reflexivity.
Qed.

Lemma array_lines_reproduce_window_witness :
  exists doc,
    file_text (fst (extract_charset "zx48.rom" "charset.h" sample_world))
              "charset.h" = Some doc /\
    length (array_lines doc) = 96%nat /\
    forall i, 0 <= i < 96 ->
      exists bs rest,
        array_lines doc !! Z.to_nat i = Some ("    " +:+ braced bs +:+ rest) /\
        length bs = 8%nat /\
        forall j, 0 <= j < 8 ->
          bs !! Z.to_nat j = pattern_rom !! Z.to_nat (15616 + 8 * i + j).
Proof.
  apply (array_lines_reproduce_window sample_world "zx48.rom" "charset.h"
           true pattern_rom).
  - reflexivity.
  - apply Z.leb_le. vm_compute. reflexivity.
  - vm_compute. reflexivity.
  - reflexivity.
Defined.

Lemma comments_follow_ascii_code_witness :
  exists doc,
    file_text (fst (extract_charset "zx48.rom" "charset.h" sample_world))
              "charset.h" = Some doc /\
    forall i, 0 <= i < 96 ->
      exists line,
        array_lines doc !! Z.to_nat i = Some line /\
        (i = 0 -> trailing_comment line = "  /* ASCII  32 (SPACE) */") /\
        (1 <= i <= 94 ->
           trailing_comment line
           = "  /* ASCII " +:+ code_field (i + 32) +:+ " ('"
             +:+ String (glyph (i + 32)) EmptyString +:+ "') */") /\
        (i = 95 -> trailing_comment line = "  /* ASCII 127 */").
Proof.
  apply (comments_follow_ascii_code sample_world "zx48.rom" "charset.h"
           true pattern_rom).
  - reflexivity.
  - apply Z.leb_le. vm_compute. reflexivity.
  - vm_compute. reflexivity.
  - reflexivity.
Defined.

Lemma comma_on_all_but_last_witness :
  exists doc,
    file_text (fst (extract_charset "zx48.rom" "charset.h" sample_world))
              "charset.h" = Some doc /\
    length (array_lines doc) = 96%nat /\
    (exists last,
       array_lines doc !! 95%nat = Some last /\
       has_trailing_comma last = false) /\
    forall i, 0 <= i < 95 ->
      exists line,
        array_lines doc !! Z.to_nat i = Some line /\
        has_trailing_comma line = true.
Proof.
  apply (comma_on_all_but_last sample_world "zx48.rom" "charset.h"
           true pattern_rom).
  - reflexivity.
  - apply Z.leb_le. vm_compute. reflexivity.
  - vm_compute. reflexivity.
  - reflexivity.
Defined.

(** C7, as stated, fails on the pattern ROM: the lines of the header it
    produces are not four comment lines followed at once by the opening of
    the array, the 96 records and the closing line. *)
Lemma four_line_header_refuted :
  ~ exists doc h1 h2 h3 h4 records,
      file_text (fst (extract_charset "zx48.rom" "charset.h" sample_world))
                "charset.h" = Some doc /\
      length records = 96%nat /\
      lines doc
      = [h1; h2; h3; h4]
        ++ ["const unsigned char zx_spectrum_charset[96][8] = {"%string]
        ++ records ++ ["};"%string].
Proof.
  intros (doc & h1 & h2 & h3 & h4 & records & Hdoc & _ & Hlines).
  assert (Hrun : file_text
                   (fst (extract_charset "zx48.rom" "charset.h" sample_world))
                   "charset.h" = Some (document (window pattern_rom))).
  { apply (run_document sample_world "zx48.rom" "charset.h" true pattern_rom).
    - reflexivity.
    - apply Z.leb_le. vm_compute. reflexivity.
    - vm_compute. reflexivity.
    - reflexivity. }
  rewrite Hrun in Hdoc. injection Hdoc as <-.
  rewrite lines_document in Hlines.
  apply (f_equal (fun l => l !! 4%nat)) in Hlines.
  change (Some " */"%string
          = Some "const unsigned char zx_spectrum_charset[96][8] = {"%string)
    in Hlines.
  discriminate Hlines.
Qed.

Lemma header_then_records_then_closing_witness :
  exists doc,
    file_text (fst (extract_charset "zx48.rom" "charset.h" sample_world))
              "charset.h" = Some doc /\
    length (array_lines doc) = 96%nat /\
    lines doc
    = [ "/*";
        " * ZX Spectrum Character Set";
        " * Extracted from ROM at address 0x3D00";
        " * 96 characters (ASCII 32-127), 8 bytes each";
        " */";
        EmptyString;
        "const unsigned char zx_spectrum_charset[96][8] = {" ]%string
      ++ array_lines doc ++ ["};"%string].
Proof.
  apply (header_then_records_then_closing sample_world "zx48.rom" "charset.h"
           true pattern_rom).
  - reflexivity.
  - apply Z.leb_le. vm_compute. reflexivity.
  - vm_compute. reflexivity.
  - reflexivity.
Defined.

Lemma output_depends_on_window_only_witness :
  is_Some (file_bytes
             (fst (extract_charset "zx48.rom" "charset.h" sample_world))
             "charset.h") /\
  file_bytes (fst (extract_charset "other.rom" "font.h" second_world)) "font.h"
  = file_bytes (fst (extract_charset "zx48.rom" "charset.h" sample_world))
               "charset.h" /\
  file_bytes
    (fst (extract_charset "zx48.rom" "charset.h"
            (fst (extract_charset "zx48.rom" "charset.h" sample_world))))
    "charset.h"
  = file_bytes (fst (extract_charset "zx48.rom" "charset.h" sample_world))
               "charset.h".
Proof.
  destruct (output_depends_on_window_only sample_world "zx48.rom" "charset.h"
              true pattern_rom) as (Hsome & Hother & Hagain).
  - reflexivity.
  - apply Z.leb_le. vm_compute. reflexivity.
  - vm_compute. reflexivity.
  - reflexivity.
  - split; [exact Hsome |]. split.
    + apply (Hother second_world "other.rom" "font.h" false padded_rom).
      * vm_compute. reflexivity.
      * apply Z.leb_le. vm_compute. reflexivity.
      * vm_compute. reflexivity.
      * vm_compute. reflexivity.
      * exact padded_rom_window.
    + apply Hagain. reflexivity.
Defined.

End SampleRuns.

(** ** Failures and the command line *)
Section Failures.
Import Py Os ExtractChars Text Layout Fields Env.

(** C2. When the source is readable and shorter than 16384 bytes, the
    function prints the size error, which names 16384 as the expected
    minimum, and returns; the file system is left as it was, so the
    destination is neither created, opened nor truncated. *)
Theorem short_rom_writes_nothing w rom out wr data :
  fs w !! rom = Some (File true wr data) ->
  len data < 16384 ->
  snd (extract_charset rom out w) = inl VNone /\
  stdout (fst (extract_charset rom out w))
  = stdout w ++ ["Error: ROM file too small. Expected at least 16384 bytes."%string] /\
  fs (fst (extract_charset rom out w)) = fs w /\
  file_bytes (fst (extract_charset rom out w)) out = file_bytes w out.
Proof.
  intros H Hlen. rewrite (run_too_small _ _ _ _ _ H Hlen).
  repeat split.
Qed.

Lemma short_rom_writes_nothing_witness :
  snd (extract_charset "zx48.rom" "charset.h" short_world) = inl VNone /\
  stdout (fst (extract_charset "zx48.rom" "charset.h" short_world))
  = stdout short_world
    ++ ["Error: ROM file too small. Expected at least 16384 bytes."%string] /\
  fs (fst (extract_charset "zx48.rom" "charset.h" short_world))
  = fs short_world /\
  file_bytes (fst (extract_charset "zx48.rom" "charset.h" short_world))
             "charset.h"
  = file_bytes short_world "charset.h".
Proof.
  apply (short_rom_writes_nothing short_world "zx48.rom" "charset.h" true
           (take (Z.to_nat 16383) pattern_rom)).
  - vm_compute. reflexivity.
  - apply Z.ltb_lt. vm_compute. reflexivity.
Defined.


(** A source that cannot be opened: the message, and nothing written. *)
Lemma run_unreadable w rom out :
  (forall wr data, fs w !! rom <> Some (File true wr data)) ->
  exists e,
    open_rb rom w = (w, inr e) /\
    is_Exception e = true /\
    extract_charset rom out w
    = (printed w (if is_FileNotFoundError e then not_found_message rom
                  else error_message e),
       inl VNone).
Proof.
  intros Hno.
  assert (Hopen : exists e, open_rb rom w = (w, inr e) /\ is_Exception e = true).
  { unfold open_rb. destruct (fs w !! rom) as [[r wr data |] |] eqn:Hrom.
    - destruct r; [now destruct (Hno wr data) |]. eauto.
    - eauto.
    - eauto. }
  destruct Hopen as (e & Hopen & He). exists e.
  split; [exact Hopen |]. split; [exact He |].
  unfold extract_charset, try_except, extract_charset_try.
  rewrite (bind_raise _ _ _ _ _ Hopen).
  now apply except_Exception.
Qed.





(** C10. Whatever happens (complete run, undersized or missing source, any
    other failure) the value returned is [None]. *)
Theorem always_returns_None w rom out :
  snd (extract_charset rom out w) = inl VNone.
Proof.
  destruct (run_outcome w rom out) as (w' & msg & -> & _). reflexivity.
Qed.

(** C9. Started with no argument, the script prints the usage line, the
    example heading and the example, touches no file, and exits with
    status 1. *)
Theorem no_argument_prints_usage (argv : list string) w :
  (length argv < 2)%nat ->
  run_script argv w
  = (World (fs w) (disk_free w)
       (stdout w
        ++ [ "Usage: python extract_zx_charset.py <rom_file> [output_file]";
             nl +:+ "Example:";
             "  python extract_zx_charset.py zx48.rom charset.h" ]%string),
     1) /\
  snd (run_script argv w) <> 0.
Proof.
  intros Hargv. unfold run_script, main.
  replace (len argv <? 2) with true by (symmetry; apply Z.ltb_lt; unfold len; lia).
  unfold bind, print, sys_exit, raise. cbn [fs disk_free stdout snd].
  rewrite <- !app_assoc. split; [reflexivity | discriminate].
Qed.

Lemma no_argument_prints_usage_witness :
  run_script ["extract_chars.py"%string] empty_world
  = (World (fs empty_world) (disk_free empty_world)
       (stdout empty_world
        ++ [ "Usage: python extract_zx_charset.py <rom_file> [output_file]";
             nl +:+ "Example:";
             "  python extract_zx_charset.py zx48.rom charset.h" ]%string),
     1) /\
  snd (run_script ["extract_chars.py"%string] empty_world) <> 0.
Proof.
  apply (no_argument_prints_usage ["extract_chars.py"%string] empty_world).
  simpl. lia.
Defined.

End Failures.

(** ** How a run that reached the destination ends *)
Section WriteFacts.
Import Py Os ExtractChars Text Layout Fields Env Outcome.

Lemma has_room_split (free : option nat) (a b : nat) :
  has_room free (a + b) = has_room free a && has_room (use_room free a) b.
Proof.
  destruct free as [q |]; [| reflexivity]. simpl.
  destruct (Nat.leb_spec (a + b) q), (Nat.leb_spec a q),
    (Nat.leb_spec b (q - a)); simpl; try reflexivity; lia.
Qed.

(** A sequence of writes stops at the first piece that does not fit, and
    leaves what was written before it. *)
Lemma writes_trace (f : handle) (l : list string) : forall w r wr d,
  fs w !! f = Some (File r wr d) ->
  exists k,
    for_each l (write f) w
    = (appended w f r wr d (str_concat (take k l)),
       if has_room (disk_free w) (String.length (str_concat l))
       then inl tt else inr (OSError ENOSPC None)) /\
    (k <= length l)%nat /\
    (k = length l <->
     has_room (disk_free w) (String.length (str_concat l)) = true).
Proof.
  induction l as [|s l IH]; intros w r wr d Hf.
  - exists 0%nat. simpl. rewrite (appended_nil _ _ _ _ _ Hf).
    destruct (disk_free w); simpl; repeat split; lia.
  - change (str_concat (s :: l)) with (s +:+ str_concat l).
    rewrite length_append, has_room_split.
    change (for_each (s :: l) (write f))
      with (bind (write f s) (fun _ => for_each l (write f))).
    destruct (has_room (disk_free w) (String.length s)) eqn:Hs.
    + rewrite (bind_eq _ _ _ _ _ (write_ok f s w r wr d Hf Hs)).
      destruct (IH (appended w f r wr d s) r wr (d ++ list_byte_of_string s))
        as (k & Hrun & Hk & Hiff).
      { unfold appended. simpl. apply lookup_insert_eq. }
      exists (S k). rewrite Hrun, appended_appended.
      change (disk_free (appended w f r wr d s))
        with (use_room (disk_free w) (String.length s)) in *.
      simpl. split; [reflexivity |]. split; [lia |].
      rewrite <- Hiff. lia.
    + exists 0%nat. erewrite bind_raise.
      2:{ unfold write. rewrite Hf, Hs. reflexivity. }
      simpl. rewrite (appended_nil _ _ _ _ _ Hf).
      split; [reflexivity |]. split; [lia |]. split; [lia | discriminate].
Qed.

Lemma pieces_concat (charset : list byte) :
  str_concat (pieces charset) = document charset.
Proof. reflexivity. Qed.





(** The source was read and is large enough, and the destination opened:
    the run writes as many pieces as fit and reports how it ended. *)
Lemma run_writes w rom out wr data :
  fs w !! rom = Some (File true wr data) ->
  16384 <= len data ->
  can_open_w w out = true ->
  exists k,
    (k <= length (pieces (window data)))%nat /\
    (k = length (pieces (window data)) <->
     has_room (disk_free w) DOCUMENT_SIZE = true) /\
    extract_charset rom out w
    = (printed
         (appended (opened w out) out (dest_readable w out) true []
            (str_concat (take k (pieces (window data)))))
         (if has_room (disk_free w) DOCUMENT_SIZE
          then success_message out
          else error_message (OSError ENOSPC None)),
       inl VNone).
Proof.
  intros H Hlen Hout.
  pose proof (document_length _ (window_length _ Hlen)) as Hsize.
  destruct (writes_trace out (pieces (window data)) (opened w out)
              (dest_readable w out) true [])
    as (k & Hrun & Hk & Hiff).
  { unfold opened. cbn [fs]. apply lookup_insert_eq. }
  rewrite pieces_concat, Hsize in Hrun, Hiff.
  change (disk_free (opened w out)) with (disk_free w) in Hrun, Hiff.
  exists k. split; [exact Hk |]. split; [exact Hiff |].
  unfold extract_charset, try_except.
  rewrite (try_after_read _ _ _ _ _ H).
  replace (len data <? CHAR_START + NUM_CHARS * CHAR_SIZE) with false
    by (symmetry; apply Z.ltb_ge; exact Hlen).
  rewrite (bind_eq _ _ _ _ _ (open_w_ok _ _ Hout)).
  fold (opened w out).
  destruct (has_room (disk_free w) DOCUMENT_SIZE).
  - rewrite (bind_eq _ _ _ _ _ Hrun). reflexivity.
  - rewrite (bind_raise _ _ _ _ _ Hrun). reflexivity.
Qed.

(** The source was read and is large enough, and the destination cannot be
    opened: nothing is touched and the exception is reported. *)
Lemma run_dest_fails w rom out wr data :
  fs w !! rom = Some (File true wr data) ->
  16384 <= len data ->
  can_open_w w out = false ->
  exists e,
    open_w out w = (w, inr e) /\
    is_Exception e = true /\
    extract_charset rom out w
    = (printed w (if is_FileNotFoundError e then not_found_message rom
                  else error_message e),
       inl VNone).
Proof.
  intros H Hlen Hout.
  assert (Hopen : exists e, open_w out w = (w, inr e) /\ is_Exception e = true).
  { unfold can_open_w in Hout. unfold open_w.
    destruct (fs w !! out) as [[r0 wr0 d0 |] |].
    - subst wr0. eauto.
    - eauto.
    - destruct (parent w out); [discriminate | eauto | eauto]. }
  destruct Hopen as (e & Hopen & He). exists e.
  split; [exact Hopen |]. split; [exact He |].
  unfold extract_charset, try_except.
  rewrite (try_after_read _ _ _ _ _ H).
  replace (len data <? CHAR_START + NUM_CHARS * CHAR_SIZE) with false
    by (symmetry; apply Z.ltb_ge; exact Hlen).
  rewrite (bind_raise _ _ _ _ _ Hopen).
  now apply except_Exception.
Qed.

(** A message that starts like an error is not the success message. *)
Lemma error_is_not_success (rest out : string) :
  "Error: " +:+ rest <> success_message out.
Proof. discriminate. Qed.

End WriteFacts.

(** ** Every run, case by case *)
Section RunCases.
Import Py Os ExtractChars Text Layout Fields Env Outcome.

(** Either nothing is written and an error is printed, or the source was
    large enough and the destination was opened. *)
Lemma run_cases w rom out :
  (exists rest,
     extract_charset rom out w = (printed w ("Error: " +:+ rest), inl VNone))
  \/
  (exists wr data k,
     fs w !! rom = Some (File true wr data) /\
     16384 <= len data /\
     can_open_w w out = true /\
     (k = length (pieces (window data)) <->
      has_room (disk_free w) DOCUMENT_SIZE = true) /\
     extract_charset rom out w
     = (printed
          (appended (opened w out) out (dest_readable w out) true []
             (str_concat (take k (pieces (window data)))))
          (if has_room (disk_free w) DOCUMENT_SIZE
           then success_message out
           else error_message (OSError ENOSPC None)),
        inl VNone)).
Proof.
  assert (Herr : forall e,
    exists rest,
      (if is_FileNotFoundError e then not_found_message rom
       else error_message e) = "Error: " +:+ rest).
  { intros e. destruct (is_FileNotFoundError e); eexists; reflexivity. }
  destruct (fs w !! rom) as [[[] wr data |] |] eqn:Hrom.
  - destruct (Z.lt_ge_cases (len data) 16384) as [Hlen | Hlen].
    + left. rewrite (run_too_small _ _ out _ _ Hrom Hlen).
      eexists. reflexivity.
    + destruct (can_open_w w out) eqn:Hout.
      * right.
        destruct (run_writes _ _ _ _ _ Hrom Hlen Hout) as (k & _ & Hiff & Hrun).
        exists wr, data, k. auto.
      * left.
        destruct (run_dest_fails _ _ _ _ _ Hrom Hlen Hout) as (e & _ & _ & ->).
        destruct (Herr e) as [rest ->]. eauto.
  - left. destruct (run_unreadable w rom out) as (e & _ & _ & ->).
    { intros wr' data'. rewrite Hrom. congruence. }
    destruct (Herr e) as [rest ->]. eauto.
  - left. destruct (run_unreadable w rom out) as (e & _ & _ & ->).
    { intros wr' data'. rewrite Hrom. congruence. }
    destruct (Herr e) as [rest ->]. eauto.
  - left. destruct (run_unreadable w rom out) as (e & _ & _ & ->).
    { intros wr' data'. rewrite Hrom. congruence. }
    destruct (Herr e) as [rest ->]. eauto.
Qed.



(** X2. The success message is printed only when the destination holds
    the complete header of a readable source of at least 16384 bytes. *)
Theorem success_means_complete w rom out :
  stdout (fst (extract_charset rom out w))
  = stdout w ++ [success_message out] ->
  exists wr data,
    fs w !! rom = Some (File true wr data) /\
    16384 <= len data /\
    file_text (fst (extract_charset rom out w)) out
    = Some (document (window data)).
Proof.
  destruct (run_cases w rom out)
    as [[rest ->] | (wr & data & k & Hrom & Hlen & _ & Hiff & ->)].
  - unfold printed. cbn [fst stdout]. intros H.
    apply app_inj_tail in H as [_ H].
    now apply error_is_not_success in H.
  - unfold printed. cbn [fst stdout fs]. intros H.
    apply app_inj_tail in H as [_ H].
    destruct (has_room (disk_free w) DOCUMENT_SIZE).
    + exists wr, data. split; [exact Hrom |]. split; [exact Hlen |].
      rewrite (proj2 Hiff eq_refl), firstn_all, pieces_concat.
      unfold file_text, appended. cbn [fs].
      now rewrite lookup_insert_eq, app_nil_l, string_of_list_byte_of_string.
    + now apply error_is_not_success in H.
Qed.

Lemma success_means_complete_witness :
  exists wr data,
    fs sample_world !! "zx48.rom"%string = Some (File true wr data) /\
    16384 <= len data /\
    file_text (fst (extract_charset "zx48.rom" "charset.h" sample_world))
              "charset.h"
    = Some (document (window data)).
Proof.
  apply (success_means_complete sample_world "zx48.rom" "charset.h").
  vm_compute. reflexivity.
Defined.



End RunCases.

(** ** Destinations that cannot be opened, and one path for both files *)
Section DestinationFacts.
Import Py Os ExtractChars Text Layout Fields Env Outcome.





(** X6. When source and destination are the same path, a complete run
    replaces the ROM by the header, 7564 bytes that are not the ROM's, and
    a further run on that path stops at the size test. *)
Theorem same_path_replaces_rom w (path : string) data :
  fs w !! path = Some (File true true data) ->
  16384 <= len data ->
  has_room (disk_free w) DOCUMENT_SIZE = true ->
  exists header,
    file_bytes (fst (extract_charset path path w)) path = Some header /\
    len header = 7564 /\
    header <> data /\
    stdout (fst (extract_charset path path w))
    = stdout w ++ [success_message path] /\
    extract_charset path path (fst (extract_charset path path w))
    = (printed (fst (extract_charset path path w)) too_small_message,
       inl VNone).
Proof.
  intros Hrom Hlen Hroom.
  assert (Hout : can_open_w w path = true).
  { unfold can_open_w. now rewrite Hrom. }
  assert (Hr : dest_readable w path = true).
  { unfold dest_readable. now rewrite Hrom. }
  rewrite (run_success _ _ _ _ _ Hrom Hlen Hout Hroom), Hr. cbn [fst].
  set (header := list_byte_of_string (document (window data))).
  set (w1 := printed _ _).
  assert (Hfile : fs w1 !! path = Some (File true true header)).
  { unfold w1, printed. cbn [fs]. apply lookup_insert_eq. }
  assert (Hsize : len header = 7564).
  { unfold len, header.
    rewrite length_bytes, (document_length _ (window_length _ Hlen)).
    unfold DOCUMENT_SIZE. lia. }
  exists header. split; [| split; [| split; [| split]]].
  - unfold file_bytes. now rewrite Hfile.
  - exact Hsize.
  - intros Heq. rewrite Heq in Hsize. lia.
  - reflexivity.
  - apply (run_too_small w1 path path true header Hfile). lia.
Qed.

Lemma same_path_replaces_rom_witness :
  exists header,
    file_bytes (fst (extract_charset "zx48.rom" "zx48.rom" sample_world))
               "zx48.rom" = Some header /\
    len header = 7564 /\
    header <> pattern_rom /\
    stdout (fst (extract_charset "zx48.rom" "zx48.rom" sample_world))
    = stdout sample_world ++ [success_message "zx48.rom"] /\
    extract_charset "zx48.rom" "zx48.rom"
      (fst (extract_charset "zx48.rom" "zx48.rom" sample_world))
    = (printed (fst (extract_charset "zx48.rom" "zx48.rom" sample_world))
         too_small_message,
       inl VNone).
Proof.
  apply (same_path_replaces_rom sample_world "zx48.rom" pattern_rom).
  - reflexivity.
  - apply Z.leb_le. vm_compute. reflexivity.
  - reflexivity.
Defined.

(** X7. Given at least one argument, the script runs the extraction on
    the first argument as source and on the second as destination (on
    [zx_charset.h] when there is no second; further arguments are
    ignored), and exits with status 0 however the extraction ended. *)
Theorem arguments_select_paths_and_exit_zero (prog rom_file : string)
    (others : list string) w :
  run_script (prog :: rom_file :: others) w
  = (fst (extract_charset rom_file
            (match others with
             | [] => "zx_charset.h"%string
             | output_file :: _ => output_file
             end) w),
     0).
Proof.
  unfold run_script, main.
  replace (len (prog :: rom_file :: others) <? 2) with false
    by (symmetry; apply Z.ltb_ge; unfold len; simpl length; lia).
  cbv zeta.
  assert (Hout :
    (if 2 <? len (prog :: rom_file :: others)
     then nth 2 (prog :: rom_file :: others) EmptyString
     else "zx_charset.h"%string)
    = match others with
      | [] => "zx_charset.h"%string
      | output_file :: _ => output_file
      end).
  { destruct others as [|o others]; [reflexivity |].
    replace (2 <? len (prog :: rom_file :: o :: others)) with true
      by (symmetry; apply Z.ltb_lt; unfold len; simpl length; lia).
    reflexivity. }
  rewrite Hout. change (nth 1 (prog :: rom_file :: others) EmptyString)
    with rom_file.
  unfold bind.
  destruct (run_outcome w rom_file
              (match others with
               | [] => "zx_charset.h"%string
               | output_file :: _ => output_file
               end)) as (w' & msg & -> & _).
  reflexivity.
Qed.

End DestinationFacts.

(** ** Reading the window back from the header *)
Section ReadBack.
Import Py Os ExtractChars Text Layout Fields Env Outcome.

Lemma append_inj_length (s1 s2 r1 r2 : string) :
  String.length s1 = String.length s2 ->
  s1 +:+ r1 = s2 +:+ r2 -> s1 = s2 /\ r1 = r2.
Proof.
  revert s2. induction s1 as [|c s1 IH]; intros [|c' s2] Hlen H;
    try discriminate Hlen.
  - now split.
  - rewrite !append_cons in H. injection H as -> H.
    injection Hlen as Hlen. destruct (IH _ Hlen H) as [-> ->]. now split.
Qed.

Lemma concat_fields_inj (l1 : list string) : forall l2 t1 t2,
  Forall (fun s => String.length s = 4%nat) l1 ->
  Forall (fun s => String.length s = 4%nat) l2 ->
  length l1 = length l2 ->
  String.concat ", " l1 +:+ t1 = String.concat ", " l2 +:+ t2 ->
  l1 = l2.
Proof.
  induction l1 as [|s1 l1 IH]; intros [|s2 l2] t1 t2 H1 H2 Hlen H;
    try discriminate Hlen; [reflexivity |].
  apply Forall_cons in H1 as [Hs1 H1]. apply Forall_cons in H2 as [Hs2 H2].
  injection Hlen as Hlen.
  destruct l1 as [|a1 l1], l2 as [|a2 l2]; try discriminate Hlen.
  - change (s1 +:+ t1 = s2 +:+ t2) in H.
    destruct (append_inj_length _ _ _ _ (eq_trans Hs1 (eq_sym Hs2)) H) as [-> _].
    reflexivity.
  - change ((s1 +:+ ", " +:+ String.concat ", " (a1 :: l1)) +:+ t1
            = (s2 +:+ ", " +:+ String.concat ", " (a2 :: l2)) +:+ t2) in H.
    rewrite !append_assoc in H.
    destruct (append_inj_length _ _ _ _ (eq_trans Hs1 (eq_sym Hs2)) H)
      as [-> Hrest].
    destruct (append_inj_length ", " ", " _ _ eq_refl Hrest) as [_ Hrest'].
    f_equal. exact (IH _ _ _ H1 H2 Hlen Hrest').
Qed.

(** A field stands for the byte it was made from. *)
Lemma field_value_hex_byte (b : byte) : field_value (hex_byte b) = b.
Proof. destruct b; reflexivity. Qed.

Lemma hex_bytes_inj (bs1 bs2 : list byte) :
  hex_byte <$> bs1 = hex_byte <$> bs2 -> bs1 = bs2.
Proof.
  intros H. apply (f_equal (fmap field_value)) in H.
  rewrite <- !list_fmap_compose in H.
  rewrite !(list_fmap_ext (field_value ∘ hex_byte) id) in H
    by (intros ? b _; apply field_value_hex_byte).
  now rewrite !list_fmap_id in H.
Qed.

Lemma record_text_inj (cs1 cs2 : list byte) (i : Z) :
  length (chunk cs1 i) = 8%nat -> length (chunk cs2 i) = 8%nat ->
  record_text cs1 i = record_text cs2 i -> chunk cs1 i = chunk cs2 i.
Proof.
  intros H1 H2 H. unfold record_text in H.
  apply (append_inj_length "    {" "    {" _ _ eq_refl) in H as [_ H].
  rewrite !byte_str_of_hex in H.
  apply hex_bytes_inj.
  apply (concat_fields_inj _ _ _ _) in H; [exact H | | |].
  - apply Forall_fmap, Forall_forall. now intros b _.
  - apply Forall_fmap, Forall_forall. now intros b _.
  - now rewrite !length_fmap, H1, H2.
Qed.

Lemma chunk_lookup (charset : list byte) (i j : Z) :
  0 <= i -> 0 <= j < 8 ->
  chunk charset i !! Z.to_nat j = charset !! Z.to_nat (8 * i + j).
Proof.
  intros Hi Hj. unfold chunk, slice, CHAR_SIZE.
  rewrite lookup_take_lt by lia.
  rewrite lookup_drop. f_equal. lia.
Qed.

Lemma chunks_determine (cs1 cs2 : list byte) :
  length cs1 = Z.to_nat 768 -> length cs2 = Z.to_nat 768 ->
  (forall i, 0 <= i < 96 -> chunk cs1 i = chunk cs2 i) ->
  cs1 = cs2.
Proof.
  intros H1 H2 H. apply list_eq. intros n.
  destruct (decide (n < Z.to_nat 768)%nat) as [Hn | Hn].
  - pose proof (Z.div_mod (Z.of_nat n) 8 ltac:(lia)) as Hdm.
    pose proof (Z.mod_pos_bound (Z.of_nat n) 8 ltac:(lia)) as Hm.
    assert (Hq : 0 <= Z.of_nat n / 8 < 96).
    { split; [apply Z.div_pos; lia | apply Z.div_lt_upper_bound; lia]. }
    replace n with (Z.to_nat (8 * (Z.of_nat n / 8) + Z.of_nat n mod 8)) by lia.
    rewrite <- !chunk_lookup by lia.
    now rewrite (H _ Hq).
  - rewrite !lookup_ge_None_2 by lia. reflexivity.
Qed.

(** The header determines the window it was made from. *)
Lemma document_inj (cs1 cs2 : list byte) :
  length cs1 = Z.to_nat 768 -> length cs2 = Z.to_nat 768 ->
  document cs1 = document cs2 -> cs1 = cs2.
Proof.
  intros H1 H2 H. apply (f_equal lines) in H.
  rewrite !lines_document in H. unfold all_lines in H.
  apply app_inv_head in H. apply app_inv_head in H.
  apply app_inv_tail in H.
  apply chunks_determine; [exact H1 | exact H2 |].
  intros i Hi.
  apply (f_equal (fun l => l !! Z.to_nat i)) in H.
  rewrite !list_lookup_fmap, (range_lookup NUM_CHARS i Hi) in H.
  apply (inj Some) in H.
  apply record_text_inj; [now apply chunk_length | now apply chunk_length |].
  exact H.
Qed.

Lemma window_lookup (data : list byte) (k : Z) :
  15616 <= k < 16384 ->
  window data !! Z.to_nat (k - 15616) = data !! Z.to_nat k.
Proof.
  intros Hk. unfold window, slice, CHAR_START, NUM_CHARS, CHAR_SIZE.
  rewrite lookup_take_lt by lia.
  rewrite lookup_drop. f_equal. lia.
Qed.

(** X8. Two complete runs that leave the same bytes in their destinations
    read sources that agree at every offset from 15616 to 16383: the
    header loses nothing of the window. *)
Theorem equal_headers_equal_windows
    w1 rom1 out1 wr1 data1 w2 rom2 out2 wr2 data2 :
  fs w1 !! rom1 = Some (File true wr1 data1) ->
  16384 <= len data1 ->
  can_open_w w1 out1 = true ->
  has_room (disk_free w1) DOCUMENT_SIZE = true ->
  fs w2 !! rom2 = Some (File true wr2 data2) ->
  16384 <= len data2 ->
  can_open_w w2 out2 = true ->
  has_room (disk_free w2) DOCUMENT_SIZE = true ->
  file_bytes (fst (extract_charset rom1 out1 w1)) out1
  = file_bytes (fst (extract_charset rom2 out2 w2)) out2 ->
  forall k, 15616 <= k < 16384 ->
    data1 !! Z.to_nat k = data2 !! Z.to_nat k.
Proof.
  intros Hrom1 Hlen1 Hout1 Hroom1 Hrom2 Hlen2 Hout2 Hroom2 Heq k Hk.
  destruct (run_document _ _ _ _ _ Hrom1 Hlen1 Hout1 Hroom1) as (_ & Hb1 & _).
  destruct (run_document _ _ _ _ _ Hrom2 Hlen2 Hout2 Hroom2) as (_ & Hb2 & _).
  rewrite Hb1, Hb2 in Heq. apply (inj Some) in Heq.
  apply (f_equal string_of_list_byte) in Heq.
  rewrite !string_of_list_byte_of_string in Heq.
  apply document_inj in Heq; [| now apply window_length ..].
  rewrite <- !(window_lookup _ k Hk). now rewrite Heq.
Qed.

Lemma equal_headers_equal_windows_witness :
  pattern_rom !! Z.to_nat 15616 = padded_rom !! Z.to_nat 15616 /\
  pattern_rom !! Z.to_nat 16383 = padded_rom !! Z.to_nat 16383.
Proof.
  assert (H : forall k, 15616 <= k < 16384 ->
                pattern_rom !! Z.to_nat k = padded_rom !! Z.to_nat k).
  { apply (equal_headers_equal_windows
             sample_world "zx48.rom" "charset.h" true pattern_rom
             second_world "other.rom" "font.h" false padded_rom).
    - reflexivity.
    - apply Z.leb_le. vm_compute. reflexivity.
    - vm_compute. reflexivity.
    - reflexivity.
    - vm_compute. reflexivity.
    - apply Z.leb_le. vm_compute. reflexivity.
    - vm_compute. reflexivity.
    - vm_compute. reflexivity.
    - vm_compute. reflexivity. }
  split; apply H; lia.
Defined.

End ReadBack.

(** ** The characters of the header *)
Section Characters.
Import Py Os ExtractChars Text Layout Fields Env Outcome.

Lemma all_chars_append p (s1 s2 : string) :
  all_chars p (s1 +:+ s2) = all_chars p s1 && all_chars p s2.
Proof.
  induction s1 as [|c s1 IH]; [reflexivity |].
  rewrite append_cons. simpl. now rewrite IH, andb_assoc.
Qed.

Lemma all_chars_concat p (sep : string) (l : list string) :
  all_chars p sep = true ->
  Forall (fun s => all_chars p s = true) l ->
  all_chars p (String.concat sep l) = true.
Proof.
  intros Hsep. induction 1 as [|s l Hs Hl IH]; [reflexivity |].
  destruct l as [|s' l]; [exact Hs |].
  change (String.concat sep (s :: s' :: l))
    with (s +:+ sep +:+ String.concat sep (s' :: l)).
  now rewrite !all_chars_append, Hs, Hsep, IH.
Qed.

Lemma all_chars_unlines p (ls : list string) :
  p "010"%char = true ->
  Forall (fun l => all_chars p l = true) ls ->
  all_chars p (unlines ls) = true.
Proof.
  intros Hnl. induction 1 as [|l ls Hl _ IH]; [reflexivity |].
  change (unlines (l :: ls)) with (l +:+ nl +:+ unlines ls).
  rewrite !all_chars_append, Hl, IH. simpl. now rewrite Hnl.
Qed.

Lemma hex_byte_seven_bit (b : byte) : all_chars seven_bit (hex_byte b) = true.
Proof. destruct b; reflexivity. Qed.

Lemma tail_seven_bit (i : Z) :
  0 <= i < NUM_CHARS ->
  all_chars seven_bit (comma_of i +:+ comment_of i) = true.
Proof.
  apply (range_forallb
           (fun i => all_chars seven_bit (comma_of i +:+ comment_of i))).
  vm_compute. reflexivity.
Qed.

Lemma record_text_seven_bit (charset : list byte) (i : Z) :
  0 <= i < NUM_CHARS -> all_chars seven_bit (record_text charset i) = true.
Proof.
  intros Hi. unfold record_text. rewrite byte_str_of_hex.
  rewrite !all_chars_append, all_chars_concat.
  - rewrite <- all_chars_append, (tail_seven_bit i Hi). reflexivity.
  - reflexivity.
  - apply Forall_fmap, Forall_forall. intros b _. apply hex_byte_seven_bit.
Qed.

Lemma document_seven_bit (charset : list byte) :
  all_chars seven_bit (document charset) = true.
Proof.
  rewrite document_unlines. apply all_chars_unlines; [reflexivity |].
  unfold all_lines. rewrite !Forall_app. repeat split.
  - repeat constructor.
  - repeat constructor.
  - apply Forall_fmap, Forall_forall. intros i Hi.
    apply record_text_seven_bit. now apply range_bounds.
  - repeat constructor.
Qed.

Lemma bytes_seven_bit (s : string) :
  all_chars seven_bit s = true ->
  Forall (fun b => (Byte.to_N b < 128)%N) (list_byte_of_string s).
Proof.
  induction s as [|c s IH]; intros H; [constructor |].
  simpl in H. apply andb_true_iff in H as [Hc Hs].
  rewrite bytes_cons. constructor; [| now apply IH].
  now apply N.ltb_lt.
Qed.

(** X9. Whatever bytes the ROM holds, the header left by a complete run
    is 7564 bytes of 7-bit ASCII. *)
Theorem header_is_seven_bit_ascii w rom out wr data :
  fs w !! rom = Some (File true wr data) ->
  16384 <= len data ->
  can_open_w w out = true ->
  has_room (disk_free w) DOCUMENT_SIZE = true ->
  exists header,
    file_bytes (fst (extract_charset rom out w)) out = Some header /\
    len header = 7564 /\
    Forall (fun b => (Byte.to_N b < 128)%N) header.
Proof.
  intros Hrom Hlen Hout Hroom.
  destruct (run_document _ _ _ _ _ Hrom Hlen Hout Hroom) as (_ & Hb & _).
  exists (list_byte_of_string (document (window data))).
  split; [exact Hb |]. split.
  - unfold len.
    rewrite length_bytes, (document_length _ (window_length _ Hlen)).
    unfold DOCUMENT_SIZE. lia.
  - apply bytes_seven_bit, document_seven_bit.
Qed.

Lemma header_is_seven_bit_ascii_witness :
  exists header,
    file_bytes (fst (extract_charset "other.rom" "font.h" second_world))
               "font.h" = Some header /\
    len header = 7564 /\
    Forall (fun b => (Byte.to_N b < 128)%N) header.
Proof.
  apply (header_is_seven_bit_ascii second_world "other.rom" "font.h" false
           padded_rom).
  - vm_compute. reflexivity.
  - apply Z.leb_le. vm_compute. reflexivity.
  - vm_compute. reflexivity.
  - vm_compute. reflexivity.
Defined.

End Characters.

(** ** The comment of an array line as C text *)
Section CommentSyntax.
Import Py Os ExtractChars Text Layout Fields Env Outcome.

Lemma count_sub_skip (c : ascii) (p a b : string) :
  lacks c a = true ->
  count_sub (String c p) (a +:+ b) = count_sub (String c p) b.
Proof.
  induction a as [|d a IH]; intros H; [reflexivity |].
  simpl in H. apply andb_true_iff in H as [Hd Ha].
  apply negb_true_iff in Hd.
  rewrite append_cons. simpl.
  rewrite Ascii.eqb_sym, Hd. simpl. now apply IH.
Qed.

Lemma ends_with_append (p a b : string) :
  ends_with p b = true -> ends_with p (a +:+ b) = true.
Proof.
  intros H. induction a as [|d a IH]; [exact H |].
  rewrite append_cons. simpl. rewrite IH. apply orb_true_r.
Qed.

Lemma hex_byte_lacks_comment_chars (c : ascii) (b : byte) :
  (c = "*" \/ c = "/")%char -> lacks c (hex_byte b) = true.
Proof. intros [-> | ->]; destruct b; reflexivity. Qed.

Lemma array_part_lacks_comment_chars (c : ascii) (bs : list byte) :
  (c = "*" \/ c = "/")%char ->
  lacks c ("    {" +:+ byte_str_of bs +:+ "}") = true.
Proof.
  intros Hc. rewrite byte_str_of_hex, !lacks_append, concat_lacks.
  - destruct Hc as [-> | ->]; reflexivity.
  - destruct Hc as [-> | ->]; reflexivity.
  - apply Forall_fmap, Forall_forall. intros b _.
    now apply hex_byte_lacks_comment_chars.
Qed.

Lemma tail_one_comment (i : Z) :
  0 <= i < 96 ->
  count_sub "/*" (comma_of i +:+ comment_of i) = 1%nat /\
  count_sub "*/" (comma_of i +:+ comment_of i) = 1%nat /\
  ends_with "*/" (comma_of i +:+ comment_of i) = true.
Proof.
  intros Hi.
  assert (H :
    (Nat.eqb (count_sub "/*" (comma_of i +:+ comment_of i)) 1
     && Nat.eqb (count_sub "*/" (comma_of i +:+ comment_of i)) 1
     && ends_with "*/" (comma_of i +:+ comment_of i)) = true).
  { apply (range_forallb
      (fun i =>
         Nat.eqb (count_sub "/*" (comma_of i +:+ comment_of i)) 1
         && Nat.eqb (count_sub "*/" (comma_of i +:+ comment_of i)) 1
         && ends_with "*/" (comma_of i +:+ comment_of i)) 96 i); [| exact Hi].
    vm_compute. reflexivity. }
  apply andb_true_iff in H as [H H3]. apply andb_true_iff in H as [H1 H2].
  apply Nat.eqb_eq in H1, H2. auto.
Qed.

(** X10. Whatever the bytes of the ROM, and also on the lines of the
    characters [*] and [/], each array line of the header left by a
    complete run holds exactly one comment: the opening [/*] occurs once
    in the line, the closing [*/] occurs once, and the line ends with
    it. *)
Theorem one_comment_per_array_line w rom out wr data :
  fs w !! rom = Some (File true wr data) ->
  16384 <= len data ->
  can_open_w w out = true ->
  has_room (disk_free w) DOCUMENT_SIZE = true ->
  exists doc,
    file_text (fst (extract_charset rom out w)) out = Some doc /\
    forall i, 0 <= i < 96 ->
      exists line,
        array_lines doc !! Z.to_nat i = Some line /\
        count_sub "/*" line = 1%nat /\
        count_sub "*/" line = 1%nat /\
        ends_with "*/" line = true.
Proof.
  intros Hrom Hlen Hout Hroom.
  destruct (run_document _ _ _ _ _ Hrom Hlen Hout Hroom) as (_ & _ & Hdoc).
  exists (document (window data)). split; [exact Hdoc |].
  intros i Hi. exists (record_text (window data) i).
  split; [now apply array_lines_lookup |].
  destruct (tail_one_comment i Hi) as (Hopen & Hclose & Hend).
  assert (Hsplit : record_text (window data) i
                   = ("    {" +:+ byte_str_of (chunk (window data) i) +:+ "}")
                     +:+ comma_of i +:+ comment_of i).
  { unfold record_text. now rewrite !append_assoc. }
  rewrite Hsplit. split; [| split].
  - rewrite count_sub_skip; [exact Hopen |].
    apply array_part_lacks_comment_chars. now right.
  - rewrite count_sub_skip; [exact Hclose |].
    apply array_part_lacks_comment_chars. now left.
  - now apply ends_with_append.
Qed.

Lemma one_comment_per_array_line_witness :
  exists doc,
    file_text (fst (extract_charset "zx48.rom" "charset.h" sample_world))
              "charset.h" = Some doc /\
    forall i, 0 <= i < 96 ->
      exists line,
        array_lines doc !! Z.to_nat i = Some line /\
        count_sub "/*" line = 1%nat /\
        count_sub "*/" line = 1%nat /\
        ends_with "*/" line = true.
Proof.
  apply (one_comment_per_array_line sample_world "zx48.rom" "charset.h" true
           pattern_rom).
  - reflexivity.
  - apply Z.leb_le. vm_compute. reflexivity.
  - vm_compute. reflexivity.
  - reflexivity.
Defined.

End CommentSyntax.
